(** * OpenPnP-Capture: the platform independent context class

    A shallow embedding of [src/common/context.cpp] (class [Context] and the
    free function [fourCCToString]) together with the properties of the
    device registry, the stream table and the stream handles.

    Conventions of the embedding
    - unsigned integers ([uint32_t], [size_t], [CapDeviceID], [CapFormatID])
      are values of [N]; [int32_t] is a value of [Z]; conversions between
      widths are written out ([to_uint32], [to_int32]);
    - a pointer is an [option]: [None] is [nullptr];
    - [std::vector<T>] is a [list T], [std::map<int32_t, Stream*>] is a
      [gmap Z (option Stream)];
    - a member function is a computation in the monad [M]: it reads and
      updates the [Context], emits [event]s (log lines, console output,
      calls made on stream objects) and either returns or ends in a
      [fault] (behaviour that C++ leaves undefined). *)

From Stdlib Require Import ZArith NArith String Ascii List Lia Sorted.
From stdpp Require Import base option list list_numbers sorting gmap.

Local Open Scope Z_scope.

(** ** Integer widths *)

Definition INT32_MAX : Z := 2147483647.
Definition UINT32_MOD : N := 4294967296%N.

(** [static_cast<uint32_t>(x)] for a signed [x]. *)
Definition to_uint32 (x : Z) : N := Z.to_N (x mod 4294967296).

(** Conversion of a [size_t] to [uint32_t]. *)
Definition size_to_uint32 (n : N) : N := (n mod UINT32_MOD)%N.

(** Conversion of a [size_t] to [int32_t] (two's complement). *)
Definition size_to_int32 (n : N) : Z :=
  let r := Z.of_N (n mod UINT32_MOD)%N in
  if r <=? INT32_MAX then r else r - 4294967296.

(** ** Descriptors: [CapFormatInfo] and [deviceInfo]

    Both structures are declared in headers; the fields are the ones
    [context.cpp] reads. *)

Record CapFormatInfo := mkFormat {
  width  : N;
  height : N;
  fourcc : N
}.

Record deviceInfo := mkDevice {
  m_name    : string;
  m_formats : list CapFormatInfo
}.

(** ** FOURCC rendering *)

(** The body of the [for] loop of [fourCCToString], [n] iterations left. *)
Fixpoint fourCC_loop (n : nat) (fcc : N) (v : string) : string :=
  match n with
  | O => v
  | S n' =>
      fourCC_loop n' (N.shiftr fcc 8)
        (v ++ String (ascii_of_N (N.land fcc 255)) EmptyString)
  end.

Definition fourCCToString (fcc : N) : string := fourCC_loop 4 fcc EmptyString.

(** ** The platform stream

    [class Stream] is abstract: every platform supplies its own subclass
    and [createPlatformStream].  The context only uses the interface below.
    A method that can change the stream object returns the new object
    state next to its result; out-parameters are passed in and returned. *)

Class PlatformStream := {
  Stream : Type;
  createPlatformStream : Stream;
  stream_open : Stream -> deviceInfo -> N -> N -> N -> bool * Stream;
  stream_isOpen : Stream -> bool;
  stream_captureFrame :
    Stream -> list Byte.byte -> N -> bool * Stream * list Byte.byte;
  stream_hasNewFrame : Stream -> bool;
  stream_getFrameCount : Stream -> N;
  stream_getPropertyLimits : Stream -> N -> Z * Z -> bool * Stream * (Z * Z);
  stream_setAutoProperty : Stream -> N -> bool -> bool * Stream;
  stream_setProperty : Stream -> N -> Z -> bool * Stream;
  stream_getFOURCC : Stream -> N
}.

Inductive loglevel := LOG_ERR | LOG_DEBUG.

Inductive logarg := ArgN (n : N) | ArgZ (z : Z) | ArgS (s : string).

Inductive method :=
| Call_open | Call_isOpen | Call_captureFrame | Call_hasNewFrame
| Call_getFrameCount | Call_getPropertyLimits | Call_setAutoProperty
| Call_setProperty | Call_getFOURCC | Call_delete.

(** What C++ leaves undefined and [context.cpp] can reach. *)
Inductive fault := NullDereference | OutOfBounds | SignedOverflow.

Section ContextClass.

Context {PS : PlatformStream}.

(** ** The context state *)

(** [m_devices] holds pointers ([context.cpp] compares its elements with
    [nullptr] and assigns them to a [deviceInfo*]), [m_streams] maps
    stream IDs to stream pointers. *)
Record Context := mkContext {
  m_devices       : list (option deviceInfo);
  m_streams       : gmap Z (option Stream);
  m_streamCounter : Z
}.

Inductive event :=
| EvLog (lvl : loglevel) (fmt : string) (args : list logarg)
| EvPrintf (fmt : string) (args : list logarg)
| EvCall (mth : method) (ID : option Z) (s : Stream).

(** ** The monad of member functions *)

Inductive outcome (A : Type) :=
| Done (a : A) (ctx : Context) (tr : list event)
| Fault (f : fault) (tr : list event).

Arguments Done {A} a ctx tr.
Arguments Fault {A} f tr.

Definition M (A : Type) : Type := Context -> outcome A.

Definition ret {A} (a : A) : M A := fun ctx => Done a ctx [].

Definition bind {A B} (m : M A) (k : A -> M B) : M B :=
  fun ctx =>
    match m ctx with
    | Done a ctx' tr =>
        match k a ctx' with
        | Done b ctx'' tr' => Done b ctx'' (tr ++ tr')
        | Fault f tr' => Fault f (tr ++ tr')
        end
    | Fault f tr => Fault f tr
    end.

Definition gets {A} (f : Context -> A) : M A := fun ctx => Done (f ctx) ctx [].
Definition modify (f : Context -> Context) : M unit :=
  fun ctx => Done tt (f ctx) [].
Definition emit (e : event) : M unit := fun ctx => Done tt ctx [e].
Definition undefined {A} (f : fault) : M A := fun _ => Fault f [].

End ContextClass.

Arguments Done {PS A} a ctx tr.
Arguments Fault {PS A} f tr.

Notation "'let*' x ':=' m 'in' k" := (bind m (fun x => k))
  (at level 10, x name, m at level 100, k at level 200).
Notation "m ;; k" := (bind m (fun _ => k))
  (at level 100, k at level 200, right associativity).

Section Members.

Context {PS : PlatformStream}.

(** ** Primitive accesses *)

(** [LOG(level, fmt, args...)]. *)
Definition LOG (lvl : loglevel) (fmt : string) (args : list logarg) : M unit :=
  emit (EvLog lvl fmt args).

Definition printf (fmt : string) (args : list logarg) : M unit :=
  emit (EvPrintf fmt args).

(** [v[i]] on a [std::vector]: no bounds check, undefined out of range. *)
Definition vector_at {A} (v : list A) (i : N) : M A :=
  match v !! N.to_nat i with
  | Some x => ret x
  | None => undefined OutOfBounds
  end.

(** [p->...]: undefined on [nullptr]. *)
Definition deref {A} (p : option A) : M A :=
  match p with
  | Some x => ret x
  | None => undefined NullDereference
  end.

(** [m_streams[ID]] on the [std::map]: a missing key is inserted with a
    value-initialised (null) pointer, which is then returned. *)
Definition streams_index (ID : Z) : M (option Stream) :=
  let* strs := gets m_streams in
  match strs !! ID with
  | Some p => ret p
  | None =>
      modify (fun c => mkContext (m_devices c) (<[ID := None]> (m_streams c))
                         (m_streamCounter c)) ;;
      ret None
  end.

(** The stream object behind a pointer stored at [ID] changed to [s]. *)
Definition stream_written (ID : Z) (s : Stream) : M unit :=
  modify (fun c => mkContext (m_devices c) (<[ID := Some s]> (m_streams c))
                     (m_streamCounter c)).

(** ** Construction *)

(** [Context::Context()]; the platform's derived class fills [m_devices]. *)
Definition Context_new (devices : list (option deviceInfo)) : Context :=
  mkContext devices ∅ 0.

(** ** The device registry *)

Definition getDeviceName (id : N) : M (option string) :=
  let* devs := gets m_devices in
  if (N.of_nat (length devs) <=? id)%N then
    LOG LOG_ERR "Device with ID %d not found" [ArgN id] ;;
    ret None
  else
    let* p := vector_at devs id in
    match p with
    | None =>
        LOG LOG_ERR "Internal device pointer is NULL" [] ;;
        ret None
    | Some dev => ret (Some (m_name dev))
    end.

Definition getDeviceCount : M N :=
  let* devs := gets m_devices in
  ret (size_to_uint32 (N.of_nat (length devs))).

Definition getNumFormats (index : N) : M Z :=
  let* devs := gets m_devices in
  if (N.of_nat (length devs) <=? index)%N then
    LOG LOG_ERR "Device with ID %d not found" [ArgN index] ;;
    ret (-1)
  else
    let* p := vector_at devs index in
    match p with
    | None =>
        LOG LOG_ERR "Internal device pointer is NULL" [] ;;
        ret (-1)
    | Some dev => ret (size_to_int32 (N.of_nat (length (m_formats dev))))
    end.

(** [info] is the content of [*info] before the call; the second
    component of the result is its content after the call. *)
Definition getFormatInfo (index formatID : N) (info : CapFormatInfo)
  : M (bool * CapFormatInfo) :=
  let* devs := gets m_devices in
  if (N.of_nat (length devs) <=? index)%N then
    LOG LOG_ERR "Device with ID %d not found" [ArgN index] ;;
    ret (false, info)
  else
    let* p := vector_at devs index in
    match p with
    | None =>
        LOG LOG_ERR "Internal device pointer is NULL" [] ;;
        ret (false, info)
    | Some dev =>
        if (formatID <? N.of_nat (length (m_formats dev)))%N then
          let* f := vector_at (m_formats dev) formatID in
          ret (true, f)
        else
          LOG LOG_ERR "Invalid format ID (got %d but max ID is %d)\n"
            [ArgN formatID; ArgN (N.of_nat (length (m_formats dev)))] ;;
          ret (false, info)
    end.

(** ** The stream table *)

(** Lookup a stream by ID and return a pointer to it if it exists. *)
Definition lookupStreamByID (ID : Z) : M (option Stream) :=
  let* strs := gets m_streams in
  match strs !! ID with
  | Some p => ret p
  | None => ret None
  end.

(** [std::map::insert]: an existing key keeps its value. *)
Definition map_insert (ID : Z) (p : option Stream)
    (strs : gmap Z (option Stream)) : gmap Z (option Stream) :=
  match strs !! ID with
  | Some _ => strs
  | None => <[ID := p]> strs
  end.

(** Store a stream pointer in [m_streams] and return its unique ID.
    [m_streamCounter++] on an [int32_t]: overflow is undefined. *)
Definition storeStream (stream : option Stream) : M Z :=
  let* ID := gets m_streamCounter in
  if ID =? INT32_MAX then undefined SignedOverflow
  else
    modify (fun c => mkContext (m_devices c) (m_streams c) (ID + 1)) ;;
    modify (fun c => mkContext (m_devices c)
                       (map_insert ID stream (m_streams c))
                       (m_streamCounter c)) ;;
    ret ID.

(** [delete p]: runs the destructor unless [p] is null. *)
Definition delete_stream (ID : Z) (p : option Stream) : M unit :=
  match p with
  | Some s => emit (EvCall Call_delete (Some ID) s)
  | None => ret tt
  end.

(** Remove a stream from [m_streams]; [true] if this was successful. *)
Definition removeStream (ID : Z) : M bool :=
  let* strs := gets m_streams in
  match strs !! ID with
  | Some p =>
      delete_stream ID p ;;
      modify (fun c => mkContext (m_devices c) (delete ID (m_streams c))
                         (m_streamCounter c)) ;;
      ret true
  | None => ret false
  end.

(** ** Opening and closing *)

(** The debug loop of [openStream] that prints the FOURCC. *)
Fixpoint print_fourcc (n : nat) (fcc : N) : M unit :=
  match n with
  | O => ret tt
  | S n' =>
      printf "%c" [ArgN (N.land fcc 255)] ;;
      print_fourcc n' (N.shiftr fcc 8)
  end.

Definition openStream (id formatID : N) : M Z :=
  let* devs := gets m_devices in
  if (id <? N.of_nat (length devs))%N then
    let* device := vector_at devs id in
    (* lookup desired format *)
    let* dev := deref device in
    if (N.of_nat (length (m_formats dev)) <=? formatID)%N then
      LOG LOG_ERR "openStream: Requested format index out of range\n" [] ;;
      ret (-1)
    else
      let s := createPlatformStream in
      let* fmt := vector_at (m_formats dev) formatID in
      emit (EvCall Call_open None s) ;;
      let '(ok, s') :=
        stream_open s dev (width fmt) (height fmt) (fourcc fmt) in
      if negb ok then
        LOG LOG_ERR "Could not open stream for device %s\n"
          [ArgS (m_name dev)] ;;
        ret (-1)
      else
        printf "[DBG ] FOURCC = " [] ;;
        emit (EvCall Call_getFOURCC None s') ;;
        print_fourcc 4 (stream_getFOURCC s') ;;
        printf "\n" [] ;;
        let* streamID := storeStream (Some s') in
        ret streamID
  else
    LOG LOG_ERR "openStream: No devices found\n" [] ;;
    ret (-1).

Definition closeStream (streamID : Z) : M bool :=
  if streamID <? 0 then
    LOG LOG_ERR "closeStream was called with a negative stream ID\n" [] ;;
    ret false
  else
    (* remove and delete stream from collection *)
    let* removed := removeStream streamID in
    (if negb removed then
       LOG LOG_ERR "could not remove stream with ID %d from m_streams.\n"
         [ArgZ streamID]
     else ret tt) ;;
    ret true.

(** ** Queries on a stream *)

Definition isOpenStream (streamID : Z) : M N :=
  if streamID <? 0 then
    LOG LOG_ERR "isOpenStream was called with a negative stream ID\n" [] ;;
    ret 0%N
  else
    let* strs := gets m_streams in
    if (N.of_nat (size strs) <=? to_uint32 streamID)%N then
      LOG LOG_ERR "isOpenStream was called with an out-of-bounds stream ID\n"
        [] ;;
      ret 0%N
    else
      let* p := streams_index streamID in
      let* s := deref p in
      emit (EvCall Call_isOpen (Some streamID) s) ;;
      ret (if stream_isOpen s then 1%N else 0%N).

Definition captureFrame (streamID : Z) (RGBbuffer : list Byte.byte)
    (RGBbufferBytes : N) : M (bool * list Byte.byte) :=
  if streamID <? 0 then
    LOG LOG_ERR "captureFrame was called with a negative stream ID\n" [] ;;
    ret (false, RGBbuffer)
  else
    let* strs := gets m_streams in
    if (N.of_nat (size strs) <=? to_uint32 streamID)%N then
      LOG LOG_ERR "captureFrame was called with an out-of-bounds stream ID\n"
        [] ;;
      ret (false, RGBbuffer)
    else
      let* p := streams_index streamID in
      let* s := deref p in
      emit (EvCall Call_captureFrame (Some streamID) s) ;;
      let '(ok, s', buf) := stream_captureFrame s RGBbuffer RGBbufferBytes in
      stream_written streamID s' ;;
      ret (ok, buf).

Definition hasNewFrame (streamID : Z) : M bool :=
  if streamID <? 0 then
    LOG LOG_ERR "hasNewFrame was called with a negative stream ID\n" [] ;;
    ret false
  else
    let* strs := gets m_streams in
    if (N.of_nat (size strs) <=? to_uint32 streamID)%N then
      LOG LOG_ERR "hasNewFrame was called with an out-of-bounds stream ID\n"
        [] ;;
      ret false
    else
      let* p := streams_index streamID in
      let* s := deref p in
      emit (EvCall Call_hasNewFrame (Some streamID) s) ;;
      ret (stream_hasNewFrame s).

Definition getStreamFrameCount (streamID : Z) : M N :=
  if streamID <? 0 then
    LOG LOG_ERR "getStreamFrameCount was called with a negative stream ID\n"
      [] ;;
    ret 0%N
  else
    let* strs := gets m_streams in
    if (N.of_nat (size strs) <=? to_uint32 streamID)%N then
      LOG LOG_ERR
        "getStreamFrameCount was called with an out-of-bounds stream ID\n"
        [] ;;
      ret 0%N
    else
      let* p := streams_index streamID in
      let* s := deref p in
      emit (EvCall Call_getFrameCount (Some streamID) s) ;;
      ret (stream_getFrameCount s).

(** ** Properties of a stream *)

Definition getStreamPropertyLimits (streamID : Z) (propertyID : N)
    (min max : Z) : M (bool * (Z * Z)) :=
  let* stream := lookupStreamByID streamID in
  match stream with
  | None => ret (false, (min, max))
  | Some s =>
      emit (EvCall Call_getPropertyLimits (Some streamID) s) ;;
      let '(ok, s', lim) := stream_getPropertyLimits s propertyID (min, max) in
      stream_written streamID s' ;;
      ret (ok, lim)
  end.

Definition setStreamAutoProperty (streamID : Z) (propertyID : N)
    (enable : bool) : M bool :=
  let* stream := lookupStreamByID streamID in
  match stream with
  | None => ret false
  | Some s =>
      emit (EvCall Call_setAutoProperty (Some streamID) s) ;;
      let '(ok, s') := stream_setAutoProperty s propertyID enable in
      stream_written streamID s' ;;
      ret ok
  end.

Definition setStreamProperty (streamID : Z) (propertyID : N) (value : Z)
  : M bool :=
  let* stream := lookupStreamByID streamID in
  match stream with
  | None => ret false
  | Some s =>
      emit (EvCall Call_setProperty (Some streamID) s) ;;
      let '(ok, s') := stream_setProperty s propertyID value in
      stream_written streamID s' ;;
      ret ok
  end.

End Members.

(** ** Calls across the public boundary

    A client of the library is a sequence of calls; [serve] dispatches one
    call and [session] runs a sequence on one context, stopping at the
    first fault. *)

Inductive request :=
| ReqGetDeviceCount
| ReqGetDeviceName (id : N)
| ReqGetNumFormats (id : N)
| ReqGetFormatInfo (id formatID : N) (info : CapFormatInfo)
| ReqOpenStream (id formatID : N)
| ReqCloseStream (streamID : Z)
| ReqIsOpenStream (streamID : Z)
| ReqCaptureFrame (streamID : Z) (buf : list Byte.byte) (bytes : N)
| ReqHasNewFrame (streamID : Z)
| ReqGetStreamFrameCount (streamID : Z)
| ReqGetStreamPropertyLimits (streamID : Z) (propertyID : N) (min max : Z)
| ReqSetStreamAutoProperty (streamID : Z) (propertyID : N) (enable : bool)
| ReqSetStreamProperty (streamID : Z) (propertyID : N) (value : Z).

Inductive reply :=
| RepCount (n : N)
| RepName (name : option string)
| RepNumFormats (n : Z)
| RepFormat (ok : bool) (info : CapFormatInfo)
| RepHandle (streamID : Z)
| RepBool (b : bool)
| RepFrame (ok : bool) (buf : list Byte.byte)
| RepLimits (ok : bool) (min max : Z).

Section Sessions.

Context {PS : PlatformStream}.

Definition serve (r : request) : M reply :=
  match r with
  | ReqGetDeviceCount => let* n := getDeviceCount in ret (RepCount n)
  | ReqGetDeviceName id => let* s := getDeviceName id in ret (RepName s)
  | ReqGetNumFormats id => let* n := getNumFormats id in ret (RepNumFormats n)
  | ReqGetFormatInfo id fid info =>
      let* r := getFormatInfo id fid info in ret (RepFormat (fst r) (snd r))
  | ReqOpenStream id fid => let* h := openStream id fid in ret (RepHandle h)
  | ReqCloseStream h => let* b := closeStream h in ret (RepBool b)
  | ReqIsOpenStream h =>
      let* n := isOpenStream h in ret (RepCount n)
  | ReqCaptureFrame h buf bytes =>
      let* r := captureFrame h buf bytes in ret (RepFrame (fst r) (snd r))
  | ReqHasNewFrame h => let* b := hasNewFrame h in ret (RepBool b)
  | ReqGetStreamFrameCount h =>
      let* n := getStreamFrameCount h in ret (RepCount n)
  | ReqGetStreamPropertyLimits h pid mn mx =>
      let* r := getStreamPropertyLimits h pid mn mx in
      ret (RepLimits (fst r) (fst (snd r)) (snd (snd r)))
  | ReqSetStreamAutoProperty h pid en =>
      let* b := setStreamAutoProperty h pid en in ret (RepBool b)
  | ReqSetStreamProperty h pid v =>
      let* b := setStreamProperty h pid v in ret (RepBool b)
  end.

Fixpoint session (rs : list request) : M (list reply) :=
  match rs with
  | [] => ret []
  | r :: rs' =>
      let* a := serve r in
      let* l := session rs' in
      ret (a :: l)
  end.

(** The replies a client receives from a sequence of calls: all of them
    when no call faults, those before the first fault otherwise. *)
Fixpoint answers (rs : list request) (ctx : Context) : list reply :=
  match rs with
  | [] => []
  | r :: rs' =>
      match serve r ctx with
      | Done a ctx' _ => a :: answers rs' ctx'
      | Fault _ _ => []
      end
  end.

End Sessions.

(** The handles that successful [openStream] calls returned, in order. *)
Fixpoint opened_handles (reps : list reply) : list Z :=
  match reps with
  | [] => []
  | RepHandle h :: reps' =>
      if h =? -1 then opened_handles reps' else h :: opened_handles reps'
  | _ :: reps' => opened_handles reps'
  end.

(** ** A simulated platform

    A small stream implementation, used to run the context on concrete
    inputs.  It refuses to open an empty frame (width or height 0), it
    delivers a frame when the buffer holds [width * height * 3] bytes, and
    it has one property (id 1) with limits [0, 100]. *)

Module Sim.

Record state := mk {
  opened   : bool;
  w        : N;
  h        : N;
  fcc      : N;
  frames   : N;
  newFrame : bool;
  prop1    : Z;
  auto1    : bool
}.

Definition fresh : state := mk false 0 0 0 0 false 0 false.

Definition open (s : state) (d : deviceInfo) (width height fourcc : N)
  : bool * state :=
  if ((width =? 0) || (height =? 0))%N then (false, s)
  else (true, mk true width height fourcc 0 true (prop1 s) (auto1 s)).

Definition capture (s : state) (buf : list Byte.byte) (bytes : N)
  : bool * state * list Byte.byte :=
  if (opened s && newFrame s && (w s * h s * 3 <=? bytes)%N)%bool then
    (true, mk (opened s) (w s) (h s) (fcc s) (frames s + 1) false
             (prop1 s) (auto1 s), buf)
  else (false, s, buf).

Definition limits (s : state) (id : N) (mm : Z * Z) : bool * state * (Z * Z) :=
  if (id =? 1)%N then (true, s, (0, 100)) else (false, s, mm).

Definition setAuto (s : state) (id : N) (en : bool) : bool * state :=
  if (id =? 1)%N then
    (true, mk (opened s) (w s) (h s) (fcc s) (frames s) (newFrame s)
             (prop1 s) en)
  else (false, s).

Definition setProp (s : state) (id : N) (v : Z) : bool * state :=
  if ((id =? 1)%N && (0 <=? v) && (v <=? 100))%bool then
    (true, mk (opened s) (w s) (h s) (fcc s) (frames s) (newFrame s)
             v (auto1 s))
  else (false, s).

#[export] Instance platform : PlatformStream := {|
  Stream := state;
  createPlatformStream := fresh;
  stream_open := open;
  stream_isOpen := opened;
  stream_captureFrame := capture;
  stream_hasNewFrame := newFrame;
  stream_getFrameCount := frames;
  stream_getPropertyLimits := limits;
  stream_setAutoProperty := setAuto;
  stream_setProperty := setProp;
  stream_getFOURCC := fcc
|}.

(** 'YUYV' packed little-endian. *)
Definition YUYV : N := 1448695129.

(** The device table of the example: one camera with two formats. *)
Definition camera0 : deviceInfo :=
  mkDevice "Camera0" [mkFormat 640 480 YUYV; mkFormat 1280 720 YUYV].

(** A device whose only format has no pixels: opening it fails. *)
Definition broken : deviceInfo := mkDevice "Broken" [mkFormat 0 0 YUYV].

Definition ctx0 : Context := Context_new [Some camera0].
Definition ctx1 : Context := Context_new [Some camera0; None; Some broken].

(** Two streams opened on [camera0], then the first one closed. *)
Definition open_open_close : list request :=
  [ReqOpenStream 0 1; ReqOpenStream 0 0; ReqCloseStream 0].

(** The context [open_open_close] leaves behind: handle 0 is closed,
    handle 1 is live. *)
Definition one_closed : Context :=
  match session open_open_close ctx0 with
  | Done _ c _ => c
  | Fault _ _ => ctx0
  end.

(** Two streams opened on [camera0], none closed. *)
Definition open_open : list request :=
  [ReqOpenStream 0 1; ReqOpenStream 0 0].

Definition two_open : Context :=
  match session open_open ctx0 with
  | Done _ c _ => c
  | Fault _ _ => ctx0
  end.

End Sim.

(** ** Observations on an outcome *)

Section Observations.

Context {PS : PlatformStream}.

Definition returned {A} (o : outcome A) : option A :=
  match o with Done a _ _ => Some a | Fault _ _ => None end.

Definition final {A} (o : outcome A) : option Context :=
  match o with Done _ c _ => Some c | Fault _ _ => None end.

Definition faulted {A} (o : outcome A) : option fault :=
  match o with Done _ _ _ => None | Fault f _ => Some f end.

Definition trace {A} (o : outcome A) : list event :=
  match o with Done _ _ tr => tr | Fault _ tr => tr end.

(** ** Vocabulary of the properties *)

(** The registry has fewer than [2^32] devices, so that [getDeviceCount]
    reports its size exactly. *)
Definition registry_fits (ctx : Context) : Prop :=
  (N.of_nat (length (m_devices ctx)) < UINT32_MOD)%N.

(** What [getDeviceCount] returns. *)
Definition deviceCount (ctx : Context) : N :=
  match getDeviceCount ctx with
  | Done n _ _ => n
  | Fault _ _ => 0%N
  end.

(** The two ways a registry lookup misses, with the log line of each. *)
Definition registry_miss (ctx : Context) (id : N) (cause : event) : Prop :=
  (registry_fits ctx /\ (deviceCount ctx <= id)%N /\
   cause = EvLog LOG_ERR "Device with ID %d not found" [ArgN id])
  \/
  (m_devices ctx !! N.to_nat id = Some None /\
   cause = EvLog LOG_ERR "Internal device pointer is NULL" []).

(** Format [formatID] of device [id] exists. *)
Definition format_available (ctx : Context) (id formatID : N) : Prop :=
  (id < deviceCount ctx)%N /\
  exists dev, m_devices ctx !! N.to_nat id = Some (Some dev) /\
              (formatID < N.of_nat (length (m_formats dev)))%N.

(** A session (a stream object) is present at handle [ID]. *)
Definition session_at (ctx : Context) (ID : Z) : option Stream :=
  match m_streams ctx !! ID with
  | Some (Some s) => Some s
  | _ => None
  end.

(** The three ways [openStream] fails: the device ID is out of range, the
    format ID is out of range for the device, or the platform stream
    refuses to open. *)
Definition open_fails (ctx : Context) (id formatID : N) : Prop :=
  (N.of_nat (length (m_devices ctx)) <= id)%N
  \/
  exists dev,
    m_devices ctx !! N.to_nat id = Some (Some dev) /\
    ((N.of_nat (length (m_formats dev)) <= formatID)%N
     \/
     exists fmt,
       m_formats dev !! N.to_nat formatID = Some fmt /\
       fst (stream_open createPlatformStream dev
              (width fmt) (height fmt) (fourcc fmt)) = false).

(** The context in which the stream object at [ID] has become [s]. *)
Definition with_stream (ctx : Context) (ID : Z) (s : Stream) : Context :=
  mkContext (m_devices ctx) (<[ID := Some s]> (m_streams ctx))
    (m_streamCounter ctx).

(** The context without the entry at [ID]. *)
Definition without_stream (ctx : Context) (ID : Z) : Context :=
  mkContext (m_devices ctx) (delete ID (m_streams ctx)) (m_streamCounter ctx).

(** [streamID] passes the bounds check of the stream queries: it is a
    non-negative [int32_t] below the number of entries of the table. *)
Definition passes_size_check (ctx : Context) (streamID : Z) : Prop :=
  0 <= streamID <= INT32_MAX /\
  streamID < Z.of_nat (size (m_streams ctx)).

(** [m] relates the context before to the context after by [R] whenever it
    returns. *)
Definition respects (R : Context -> Context -> Prop) {A} (m : M A) : Prop :=
  forall ctx a ctx' tr, m ctx = Done a ctx' tr -> R ctx ctx'.

(** The registry and the handle counter are the same in both contexts. *)
Definition same_counter (c c' : Context) : Prop :=
  m_devices c' = m_devices c /\ m_streamCounter c' = m_streamCounter c.

End Observations.

(** The [i]-th lowest byte of a value. *)
Definition byte_of (i : nat) (v : N) : N := ((v / 2 ^ (8 * N.of_nat i)) mod 256)%N.

(** ** Teardown *)

Section Teardown.

Context {PS : PlatformStream}.

(** The order of two entries of [m_streams] in an iteration of the
    [std::map]: by key. *)
Definition key_le (a b : Z * option Stream) : Prop := a.1 <= b.1.

#[local] Instance key_le_dec (a b : Z * option Stream) : Decision (key_le a b).
Proof. unfold key_le. apply _. Defined.

(** The entries of the table from [m_streams.begin()] to
    [m_streams.end()]. *)
Definition streams_in_order (strs : gmap Z (option Stream))
  : list (Z * option Stream) :=
  merge_sort key_le (map_to_list strs).

(** The [while] loop of the destructor over the remaining entries. *)
Fixpoint delete_entries (entries : list (Z * option Stream)) : M unit :=
  match entries with
  | [] => ret tt
  | (ID, p) :: rest => delete_stream ID p ;; delete_entries rest
  end.

(** [Context::~Context()]: delete the stream objects, then log. *)
Definition Context_destroy : M unit :=
  let* strs := gets m_streams in
  delete_entries (streams_in_order strs) ;;
  LOG LOG_DEBUG "Context destroyed\n" [].

(** The handle whose stream object [delete] destroys for an entry of
    the table, if the pointer is not null. *)
Definition entry_session (kp : Z * option Stream) : option Z :=
  match kp.2 with Some _ => Some kp.1 | None => None end.

(** The handles on which a computation ran the stream destructor. *)
Definition deleted_handles (tr : list event) : list Z :=
  omap (fun e => match e with
                 | EvCall Call_delete (Some ID) _ => Some ID
                 | _ => None
                 end) tr.

(** ** Vocabulary of the further properties *)

(** The stream table as the member functions keep it: the counter is not
    negative, every key is a handle that was handed out, and no entry is
    a null pointer. *)
Definition table_ok (ctx : Context) : Prop :=
  0 <= m_streamCounter ctx /\
  forall k p, m_streams ctx !! k = Some p ->
              0 <= k < m_streamCounter ctx /\ is_Some p.

(** No handle that was handed out is missing from the table. *)
Definition table_dense (ctx : Context) : Prop :=
  table_ok ctx /\ Z.of_nat (size (m_streams ctx)) = m_streamCounter ctx.

(** The one key of the stream table a call can write: the counter for
    [openStream], the handle for the calls that take one. *)
Definition touched (r : request) (ctx : Context) : option Z :=
  match r with
  | ReqGetDeviceCount | ReqGetDeviceName _ | ReqGetNumFormats _
  | ReqGetFormatInfo _ _ _ => None
  | ReqOpenStream _ _ => Some (m_streamCounter ctx)
  | ReqCloseStream h | ReqIsOpenStream h | ReqCaptureFrame h _ _
  | ReqHasNewFrame h | ReqGetStreamFrameCount h
  | ReqGetStreamPropertyLimits h _ _ _ | ReqSetStreamAutoProperty h _ _
  | ReqSetStreamProperty h _ _ => Some h
  end.

Definition is_close (r : request) : bool :=
  match r with ReqCloseStream _ => true | _ => false end.

(** A query takes the null-pointer path: the handle passes the sign and
    size checks and the table has no stream object for it. *)
Definition stale_in_bounds (ctx : Context) (streamID : Z) : Prop :=
  0 <= streamID /\
  (to_uint32 streamID < N.of_nat (size (m_streams ctx)))%N /\
  session_at ctx streamID = None.

End Teardown.

(** * Properties *)

(** ** FOURCC rendering *)

Lemma land_255_mod (x : N) : N.land x 255 = (x mod 256)%N.
Proof. change 255%N with (N.ones 8). apply N.land_ones. Qed.

Lemma shiftr_byte (v : N) (k : N) :
  N.land (N.shiftr v (8 * k)) 255 = ((v / 2 ^ (8 * k)) mod 256)%N.
Proof. now rewrite land_255_mod, N.shiftr_div_pow2. Qed.

Lemma byte_of_lt (i : nat) (v : N) : (byte_of i v < 256)%N.
Proof. unfold byte_of. apply N.mod_lt. discriminate. Qed.

Lemma fourCCToString_unfold (v : N) :
  fourCCToString v =
  String (ascii_of_N (byte_of 0 v))
    (String (ascii_of_N (byte_of 1 v))
       (String (ascii_of_N (byte_of 2 v))
          (String (ascii_of_N (byte_of 3 v)) EmptyString))).
Proof.
  unfold fourCCToString, fourCC_loop. cbn [String.append].
  rewrite !N.shiftr_shiftr.
  change v with (N.shiftr v (8 * 0)) at 1.
  change (8 + 8)%N with (8 * 2)%N.
  change (8 * 2 + 8)%N with (8 * 3)%N.
  change 8%N with (8 * 1)%N at 2.
  rewrite !shiftr_byte. reflexivity.
Qed.

(** C9. [fourCCToString] renders every value as a string of exactly four
    characters, and the character at position [i] (0 to 3) is the one whose
    code is the [i]-th lowest byte of the value: the bytes are taken low to
    high. *)
Theorem fourCCToString_bytes (v : N) :
  String.length (fourCCToString v) = 4%nat /\
  forall i : nat, (i < 4)%nat ->
    exists c, String.get i (fourCCToString v) = Some c /\
              N_of_ascii c = byte_of i v.
Proof.
  rewrite fourCCToString_unfold. split; [reflexivity |].
  intros i Hi.
  destruct i as [| [| [| [| i]]]]; try lia;
    (eexists; split; [reflexivity |]);
    apply N_ascii_embedding, byte_of_lt.
Qed.

Section Registry.

Context {PS : PlatformStream}.

Lemma deviceCount_fits (ctx : Context) :
  registry_fits ctx -> deviceCount ctx = N.of_nat (length (m_devices ctx)).
Proof.
  intros Hfit. unfold deviceCount, getDeviceCount, bind, gets, ret.
  unfold size_to_uint32. now apply N.mod_small.
Qed.

Lemma slot_in_range {A} (l : list A) (id : N) (x : A) :
  l !! N.to_nat id = Some x -> (N.of_nat (length l) <=? id)%N = false.
Proof.
  intros Hl. apply lookup_lt_Some in Hl. apply N.leb_gt. lia.
Qed.

Lemma slot_in_range_ltb {A} (l : list A) (id : N) (x : A) :
  l !! N.to_nat id = Some x -> (id <? N.of_nat (length l))%N = true.
Proof.
  intros Hl. apply lookup_lt_Some in Hl. apply N.ltb_lt. lia.
Qed.

Lemma slot_exists {A} (l : list A) (id : N) :
  (id < N.of_nat (length l))%N -> exists x, l !! N.to_nat id = Some x.
Proof.
  intros Hlt. destruct (lookup_lt_is_Some_2 l (N.to_nat id)) as [x Hx];
    [lia | eauto].
Qed.

Lemma registry_miss_sentinels (ctx : Context) (id : N) (cause : event) :
  registry_miss ctx id cause ->
  getDeviceName id ctx = Done None ctx [cause] /\
  getNumFormats id ctx = Done (-1) ctx [cause] /\
  forall formatID info,
    getFormatInfo id formatID info ctx = Done (false, info) ctx [cause].
Proof.
  intros [(Hfit & Hle & ->) | (Hnull & ->)].
  - rewrite (deviceCount_fits ctx Hfit) in Hle.
    apply N.leb_le in Hle.
    unfold getDeviceName, getNumFormats, getFormatInfo, bind, gets.
    rewrite Hle. repeat split.
  - pose proof (slot_in_range _ _ _ Hnull) as Hrange.
    unfold getDeviceName, getNumFormats, getFormatInfo, bind, gets, vector_at.
    rewrite Hrange, Hnull. repeat split.
Qed.

(** C6. A registry lookup that misses, either because the device ID is
    at least [getDeviceCount()] (in a registry of fewer than [2^32]
    devices, whose size the [uint32_t] count reports exactly) or because
    the slot holds a null descriptor, makes [getDeviceName], [getNumFormats] and [getFormatInfo]
    return their sentinel ([NULL], -1, [false]) without a fault and without
    changing the context; the only difference between the two kinds of miss
    is the logged cause. *)
Theorem registry_miss_not_found (ctx : Context) (id : N) (cause : event) :
  registry_miss ctx id cause ->
  getDeviceName id ctx = Done None ctx [cause] /\
  getNumFormats id ctx = Done (-1) ctx [cause] /\
  forall formatID info,
    getFormatInfo id formatID info ctx = Done (false, info) ctx [cause].
Proof. apply registry_miss_sentinels. Qed.

(** C7. [getFormatInfo] returns [true] and stores the device's
    [formatID]-th format in [*info] when the device ID is below
    [getDeviceCount()], the descriptor is present and [formatID] is below
    the device's format count; in every other case it returns [false] and
    leaves [*info] as it was.  It never faults and never changes the
    context. *)
Theorem getFormatInfo_exact (ctx : Context) (id formatID : N)
    (info : CapFormatInfo) :
  registry_fits ctx ->
  (format_available ctx id formatID ->
   exists dev f,
     m_devices ctx !! N.to_nat id = Some (Some dev) /\
     m_formats dev !! N.to_nat formatID = Some f /\
     getFormatInfo id formatID info ctx = Done (true, f) ctx [])
  /\
  (~ format_available ctx id formatID ->
   exists tr, getFormatInfo id formatID info ctx = Done (false, info) ctx tr).
Proof.
  intros Hfit. unfold format_available.
  rewrite (deviceCount_fits ctx Hfit). split.
  - intros (Hid & dev & Hdev & Hfmt).
    destruct (slot_exists _ _ Hfmt) as [f Hf].
    exists dev, f. repeat split; try assumption.
    unfold getFormatInfo, bind, gets, vector_at.
    rewrite (slot_in_range _ _ _ Hdev), Hdev. cbv beta iota delta [ret].
    apply N.ltb_lt in Hfmt. rewrite Hfmt, Hf. reflexivity.
  - intros Hno.
    unfold getFormatInfo, bind, gets, vector_at.
    destruct (N.of_nat (length (m_devices ctx)) <=? id)%N eqn:Hrange;
      [eexists; reflexivity |].
    apply N.leb_gt in Hrange.
    destruct (slot_exists _ _ Hrange) as [p Hp]. rewrite Hp.
    destruct p as [dev |]; [| eexists; reflexivity].
    cbv beta iota delta [ret].
    destruct (formatID <? N.of_nat (length (m_formats dev)))%N eqn:Hfmt;
      [| eexists; reflexivity].
    exfalso. apply Hno. split; [assumption |].
    exists dev. split; [assumption |]. now apply N.ltb_lt.
Qed.

End Registry.

(** ** Relating the context before and after a call *)

Section Respects.

Context {PS : PlatformStream}.
Variable R : Context -> Context -> Prop.
Hypothesis R_refl : forall c, R c c.
Hypothesis R_trans : forall c1 c2 c3, R c1 c2 -> R c2 c3 -> R c1 c3.

Lemma respects_ret {A} (a : A) : respects R (ret a).
Proof. intros ctx b ctx' tr H. inversion H; subst. apply R_refl. Qed.

Lemma respects_gets {A} (f : Context -> A) : respects R (gets f).
Proof. intros ctx b ctx' tr H. inversion H; subst. apply R_refl. Qed.

Lemma respects_emit (e : event) : respects R (emit e).
Proof. intros ctx b ctx' tr H. inversion H; subst. apply R_refl. Qed.

Lemma respects_undefined {A} (f : fault) : respects R (@undefined _ A f).
Proof. intros ctx b ctx' tr H. discriminate H. Qed.

Lemma respects_modify (f : Context -> Context) :
  (forall c, R c (f c)) -> respects R (modify f).
Proof. intros Hf ctx b ctx' tr H. inversion H; subst. apply Hf. Qed.

Lemma respects_bind {A B} (m : M A) (k : A -> M B) :
  respects R m -> (forall a, respects R (k a)) -> respects R (bind m k).
Proof.
  intros Hm Hk ctx b ctx' tr H. unfold bind in H.
  destruct (m ctx) as [a c1 t1 |] eqn:E1; [| discriminate].
  destruct (k a c1) as [b' c2 t2 |] eqn:E2; [| discriminate].
  inversion H; subst.
  eapply R_trans; [eapply Hm | eapply Hk]; eassumption.
Qed.

(** Every update of the stream table alone is allowed by [R]. *)
Hypothesis R_streams :
  forall c strs, R c (mkContext (m_devices c) strs (m_streamCounter c)).

Ltac respects_step :=
  first
    [ apply respects_ret | apply respects_gets | apply respects_emit
    | apply respects_undefined
    | apply respects_modify; intros; apply R_streams
    | apply respects_bind; [| intros ?]
    | match goal with
      | |- respects _ (match ?x with _ => _ end) => destruct x
      end ].

Ltac respects_all := repeat respects_step.

Lemma respects_LOG lvl fmt args : respects R (LOG lvl fmt args).
Proof. unfold LOG. respects_all. Qed.

Lemma respects_vector_at {A} (v : list A) i : respects R (vector_at v i).
Proof. unfold vector_at. respects_all. Qed.

Lemma respects_deref {A} (p : option A) : respects R (deref p).
Proof. unfold deref. respects_all. Qed.

Lemma respects_streams_index ID : respects R (streams_index ID).
Proof. unfold streams_index. respects_all. Qed.

Lemma respects_stream_written ID s : respects R (stream_written ID s).
Proof. unfold stream_written. respects_all. Qed.

Lemma respects_lookupStreamByID ID : respects R (lookupStreamByID ID).
Proof. unfold lookupStreamByID. respects_all. Qed.

Lemma respects_removeStream ID : respects R (removeStream ID).
Proof. unfold removeStream, delete_stream. respects_all. Qed.

Hint Resolve respects_LOG respects_vector_at respects_deref
  respects_streams_index respects_stream_written respects_lookupStreamByID
  respects_removeStream : core.

Ltac respects_calls :=
  repeat first [ solve [auto] | respects_step ].

Lemma respects_getDeviceName id : respects R (getDeviceName id).
Proof. unfold getDeviceName. respects_calls. Qed.

Lemma respects_getDeviceCount : respects R getDeviceCount.
Proof. unfold getDeviceCount. respects_calls. Qed.

Lemma respects_getNumFormats id : respects R (getNumFormats id).
Proof. unfold getNumFormats. respects_calls. Qed.

Lemma respects_getFormatInfo id fid info :
  respects R (getFormatInfo id fid info).
Proof. unfold getFormatInfo. respects_calls. Qed.

Lemma respects_closeStream ID : respects R (closeStream ID).
Proof. unfold closeStream. respects_calls. Qed.

Lemma respects_isOpenStream ID : respects R (isOpenStream ID).
Proof. unfold isOpenStream. respects_calls. Qed.

Lemma respects_captureFrame ID buf n : respects R (captureFrame ID buf n).
Proof. unfold captureFrame. respects_calls. Qed.

Lemma respects_hasNewFrame ID : respects R (hasNewFrame ID).
Proof. unfold hasNewFrame. respects_calls. Qed.

Lemma respects_getStreamFrameCount ID : respects R (getStreamFrameCount ID).
Proof. unfold getStreamFrameCount. respects_calls. Qed.

Lemma respects_getStreamPropertyLimits ID pid mn mx :
  respects R (getStreamPropertyLimits ID pid mn mx).
Proof. unfold getStreamPropertyLimits. respects_calls. Qed.

Lemma respects_setStreamAutoProperty ID pid en :
  respects R (setStreamAutoProperty ID pid en).
Proof. unfold setStreamAutoProperty. respects_calls. Qed.

Lemma respects_setStreamProperty ID pid v :
  respects R (setStreamProperty ID pid v).
Proof. unfold setStreamProperty. respects_calls. Qed.

End Respects.

(** ** Handles *)

Section Handles.

Context {PS : PlatformStream}.

Lemma same_counter_refl (c : Context) : same_counter c c.
Proof. split; reflexivity. Qed.

Lemma same_counter_trans (c1 c2 c3 : Context) :
  same_counter c1 c2 -> same_counter c2 c3 -> same_counter c1 c3.
Proof. intros [H1 H2] [H3 H4]. split; congruence. Qed.

Lemma same_counter_streams (c : Context) strs :
  same_counter c (mkContext (m_devices c) strs (m_streamCounter c)).
Proof. split; reflexivity. Qed.

Lemma print_fourcc_done (n : nat) (fcc : N) (ctx : Context) :
  exists tr, print_fourcc n fcc ctx = Done tt ctx tr.
Proof.
  revert fcc. induction n as [| n IH]; intros fcc; simpl.
  - eexists. reflexivity.
  - unfold bind, printf, emit. destruct (IH (N.shiftr fcc 8)) as [tr ->].
    eexists. reflexivity.
Qed.

(** What a returning [openStream] did: either it failed, returned -1 and
    left the context alone, or it returned the counter, advanced it by one
    and stored the opened stream under the returned handle. *)
Lemma openStream_returns (id formatID : N) (ctx ctx' : Context) (h : Z) tr :
  openStream id formatID ctx = Done h ctx' tr ->
  (h = -1 /\ ctx' = ctx) \/
  (h = m_streamCounter ctx /\ h <> INT32_MAX /\
   exists s,
     ctx' = mkContext (m_devices ctx)
              (map_insert h (Some s) (m_streams ctx)) (h + 1)).
Proof.
  unfold openStream, bind, gets, vector_at, deref, LOG, printf, emit.
  destruct (id <? N.of_nat (length (m_devices ctx)))%N;
    [| intros H; inversion H; auto].
  destruct (m_devices ctx !! N.to_nat id) as [[dev |] |];
    cbv beta iota delta [ret undefined]; try discriminate.
  destruct (N.of_nat (length (m_formats dev)) <=? formatID)%N;
    [intros H; inversion H; auto |].
  destruct (m_formats dev !! N.to_nat formatID) as [fmt |];
    cbv beta iota; try discriminate.
  destruct (stream_open createPlatformStream dev (width fmt) (height fmt)
              (fourcc fmt)) as [ok s'].
  destruct ok; cbn [negb]; cbv beta iota; [| intros H; inversion H; auto].
  destruct (print_fourcc_done 4 (stream_getFOURCC s') ctx) as [tr4 ->].
  unfold storeStream, bind, gets, modify, ret, undefined.
  destruct (m_streamCounter ctx =? INT32_MAX) eqn:Hmax; [discriminate |].
  apply Z.eqb_neq in Hmax.
  intros H; inversion H; subst. right. repeat split; eauto.
Qed.

Lemma bind_ret_inv {A B} (m : M A) (f : A -> B) (ctx ctx' : Context) b tr :
  bind m (fun a => ret (f a)) ctx = Done b ctx' tr ->
  exists a t, m ctx = Done a ctx' t /\ b = f a.
Proof.
  unfold bind, ret. destruct (m ctx) as [a c1 t1 |]; [| discriminate].
  intros H; inversion H; subst. eauto.
Qed.

Lemma serve_returns (r : request) (ctx ctx' : Context) (rep : reply) tr :
  serve r ctx = Done rep ctx' tr ->
  (exists h, rep = RepHandle h /\
     ((h = -1 /\ ctx' = ctx) \/
      (h = m_streamCounter ctx /\ h <> INT32_MAX /\
       m_streamCounter ctx' = h + 1 /\ m_devices ctx' = m_devices ctx)))
  \/
  ((forall h, rep <> RepHandle h) /\ same_counter ctx ctx').
Proof.
  pose proof same_counter_refl as Hr.
  pose proof same_counter_trans as Ht.
  pose proof same_counter_streams as Hs.
  destruct r; cbn [serve]; intros H;
    apply bind_ret_inv in H as (a & t & E & ->);
    try (right; split; [discriminate |]).
  - eapply (respects_getDeviceCount same_counter); eauto.
  - eapply (respects_getDeviceName same_counter); eauto.
  - eapply (respects_getNumFormats same_counter); eauto.
  - eapply (respects_getFormatInfo same_counter); eauto.
  - left. exists a. split; [reflexivity |].
    destruct (openStream_returns _ _ _ _ _ _ E)
      as [[-> ->] | (-> & Hne & s & ->)]; [left | right]; auto.
  - eapply (respects_closeStream same_counter); eauto.
  - eapply (respects_isOpenStream same_counter); eauto.
  - eapply (respects_captureFrame same_counter); eauto.
  - eapply (respects_hasNewFrame same_counter); eauto.
  - eapply (respects_getStreamFrameCount same_counter); eauto.
  - eapply (respects_getStreamPropertyLimits same_counter); eauto.
  - eapply (respects_setStreamAutoProperty same_counter); eauto.
  - eapply (respects_setStreamProperty same_counter); eauto.
Qed.

(** [openStream] returns the current counter as the handle whenever the
    descriptor is present, the format exists, the platform stream opens
    and the counter can still advance. *)
Lemma openStream_succeeds (ctx : Context) (id formatID : N)
    (dev : deviceInfo) (fmt : CapFormatInfo) (s' : Stream) :
  m_devices ctx !! N.to_nat id = Some (Some dev) ->
  m_formats dev !! N.to_nat formatID = Some fmt ->
  stream_open createPlatformStream dev (width fmt) (height fmt) (fourcc fmt)
    = (true, s') ->
  m_streamCounter ctx <> INT32_MAX ->
  exists tr,
    openStream id formatID ctx =
    Done (m_streamCounter ctx)
      (mkContext (m_devices ctx)
         (map_insert (m_streamCounter ctx) (Some s') (m_streams ctx))
         (m_streamCounter ctx + 1)) tr.
Proof.
  intros Hdev Hfmt Hopen Hmax.
  unfold openStream, bind, gets, vector_at, deref, LOG, printf, emit.
  rewrite (slot_in_range_ltb _ _ _ Hdev), Hdev. cbv beta iota delta [ret].
  rewrite (slot_in_range _ _ _ Hfmt), Hfmt. cbv beta iota.
  rewrite Hopen. cbn [negb]. cbv beta iota.
  destruct (print_fourcc_done 4 (stream_getFOURCC s') ctx) as [tr4 ->].
  unfold storeStream, bind, gets, modify, ret, undefined.
  apply Z.eqb_neq in Hmax. rewrite Hmax. eexists. reflexivity.
Qed.

(** The replies of a session that returns are the [answers]. *)
Lemma session_answers (rs : list request) :
  forall (ctx ctx' : Context) (reps : list reply) tr,
    session rs ctx = Done reps ctx' tr -> answers rs ctx = reps.
Proof.
  induction rs as [| r rs IH]; intros ctx ctx' reps tr H.
  - inversion H; reflexivity.
  - cbn [session answers] in *. unfold bind at 1 in H.
    destruct (serve r ctx) as [rep c1 t1 |]; [| discriminate].
    unfold bind at 1 in H.
    destruct (session rs c1) as [reps' c2 t2 |] eqn:E2; [| discriminate].
    cbv beta iota delta [ret] in H. inversion H; subst.
    f_equal. eapply IH. eassumption.
Qed.

(** From a non-negative counter [c], the handles handed out in a sequence
    of calls are [c], [c + 1], ... without a gap. *)
Lemma answers_handles (rs : list request) :
  forall ctx : Context,
    0 <= m_streamCounter ctx ->
    exists n : nat,
      opened_handles (answers rs ctx) =
        seqZ (m_streamCounter ctx) (Z.of_nat n).
Proof.
  induction rs as [| r rs IH]; intros ctx Hpos; cbn [answers].
  - exists 0%nat. reflexivity.
  - destruct (serve r ctx) as [rep c1 t1 |] eqn:E1;
      [| exists 0%nat; reflexivity].
    destruct (serve_returns _ _ _ _ _ E1)
      as [(h & -> & [[-> ->] | (-> & Hne & Hc & Hd)]) | [Hrep [Hd Hc]]].
    + destruct (IH _ Hpos) as [n Hn]. exists n.
      cbn [opened_handles]. rewrite Z.eqb_refl. assumption.
    + assert (Hpos1 : 0 <= m_streamCounter c1) by lia.
      destruct (IH _ Hpos1) as [n Hn]. exists (S n).
      cbn [opened_handles].
      destruct (m_streamCounter ctx =? -1) eqn:Hm1;
        [apply Z.eqb_eq in Hm1; lia |].
      rewrite Hn, Hc.
      rewrite (seqZ_cons (m_streamCounter ctx)) by lia.
      f_equal. f_equal; lia.
    + assert (Hpos1 : 0 <= m_streamCounter c1) by lia.
      destruct (IH _ Hpos1) as [n Hn]. rewrite Hc in Hn. exists n.
      destruct rep; cbn [opened_handles]; try assumption.
      exfalso. eapply Hrep. reflexivity.
Qed.

Lemma seqZ_strictly_sorted (n : nat) :
  forall m, StronglySorted Z.lt (seqZ m (Z.of_nat n)).
Proof.
  induction n as [| n IH]; intros m.
  - rewrite seqZ_nil by lia. constructor.
  - rewrite seqZ_cons by lia.
    replace (Z.pred (Z.of_nat (S n))) with (Z.of_nat n) by lia.
    constructor; [apply IH |].
    apply Forall_seqZ. intros k Hk. lia.
Qed.

(** C5. On one context, whose counter starts at 0, the handles that
    successful [openStream] calls return in any sequence of calls are
    0, 1, 2, ... in this order, whatever other calls (closing streams
    included) come in between: each later handle is strictly greater than
    each earlier one and no handle is returned twice.  The counter is an
    [int32_t]; incrementing it at [INT32_MAX] is undefined and ends the
    sequence, as does any other fault. *)
Theorem handles_strictly_increasing (devices : list (option deviceInfo))
    (rs : list request) :
  let hs := opened_handles (answers rs (Context_new devices)) in
  hs = seqZ 0 (Z.of_nat (length hs)) /\
  StronglySorted Z.lt hs /\
  NoDup hs.
Proof.
  intros hs.
  destruct (answers_handles rs (Context_new devices)) as [n Hn];
    [cbn; lia |].
  cbn [Context_new m_streamCounter] in Hn. fold hs in Hn.
  assert (Hlen : length hs = n).
  { rewrite Hn, length_seqZ. lia. }
  rewrite Hlen, Hn. split; [reflexivity |]. split.
  - apply seqZ_strictly_sorted.
  - apply NoDup_seqZ.
Qed.

End Handles.

(** ** Opening a stream *)

Section Opening.

Context {PS : PlatformStream}.

Lemma openStream_fails (ctx : Context) (id formatID : N) :
  open_fails ctx id formatID ->
  exists tr, openStream id formatID ctx = Done (-1) ctx tr.
Proof.
  unfold openStream, bind, gets, vector_at, deref, LOG, printf, emit.
  intros [Hid | (dev & Hdev & [Hfmt | (fmt & Hfmt & Hopen)])].
  - apply N.ltb_ge in Hid. rewrite Hid. eexists. reflexivity.
  - rewrite (slot_in_range_ltb _ _ _ Hdev), Hdev.
    cbv beta iota delta [ret]. apply N.leb_le in Hfmt. rewrite Hfmt.
    eexists. reflexivity.
  - rewrite (slot_in_range_ltb _ _ _ Hdev), Hdev.
    cbv beta iota delta [ret].
    rewrite (slot_in_range _ _ _ Hfmt), Hfmt. cbv beta iota.
    destruct (stream_open createPlatformStream dev (width fmt) (height fmt)
                (fourcc fmt)) as [ok s'].
    cbn [fst] in Hopen. subst ok. eexists. reflexivity.
Qed.

(** C4. A failed [openStream] (device ID out of range, format ID out of
    range, or the platform stream failing to open) returns -1 and leaves
    the whole context, stream table and handle counter included, as it
    was; whatever calls follow, they return what they would have returned
    without the failed call, so the next successful [openStream] gets the
    same handle. *)
Theorem openStream_failure_allocates_nothing (ctx : Context)
    (id formatID : N) :
  open_fails ctx id formatID ->
  returned (openStream id formatID ctx) = Some (-1) /\
  final (openStream id formatID ctx) = Some ctx /\
  forall rs : list request,
    returned (session (ReqOpenStream id formatID :: rs) ctx) =
      cons (RepHandle (-1)) <$> returned (session rs ctx) /\
    final (session (ReqOpenStream id formatID :: rs) ctx) =
      final (session rs ctx).
Proof.
  intros Hfail. destruct (openStream_fails _ _ _ Hfail) as [tr Hopen].
  rewrite Hopen. repeat split.
  - cbn [session serve]. unfold bind. rewrite Hopen.
    cbv beta iota delta [ret].
    destruct (session rs ctx); reflexivity.
  - cbn [session serve]. unfold bind. rewrite Hopen.
    cbv beta iota delta [ret].
    destruct (session rs ctx); reflexivity.
Qed.

(** C10. [openStream] checks the device ID and the format ID against the
    sizes only: it dereferences the descriptor without a null check, so it
    ends in a null dereference exactly when the slot of an in-range device
    ID holds a null descriptor, and it does so without reporting anything;
    the three registry lookups report the same slot as not found. *)
Theorem openStream_null_descriptor (ctx : Context) (id formatID : N) :
  (faulted (openStream id formatID ctx) = Some NullDereference <->
   m_devices ctx !! N.to_nat id = Some None)
  /\
  (m_devices ctx !! N.to_nat id = Some None ->
   openStream id formatID ctx = Fault NullDereference [] /\
   returned (getDeviceName id ctx) = Some None /\
   returned (getNumFormats id ctx) = Some (-1) /\
   forall info,
     returned (getFormatInfo id formatID info ctx) = Some (false, info)).
Proof.
  assert (Hnull : m_devices ctx !! N.to_nat id = Some None ->
                  openStream id formatID ctx = Fault NullDereference []).
  { intros Hslot.
    unfold openStream, bind, gets, vector_at, deref.
    rewrite (slot_in_range_ltb _ _ _ Hslot), Hslot. reflexivity. }
  split; [split |].
  - unfold openStream, bind, gets, vector_at, deref, LOG, printf, emit.
    destruct (id <? N.of_nat (length (m_devices ctx)))%N; [| discriminate].
    destruct (m_devices ctx !! N.to_nat id) as [[dev |] |];
      cbv beta iota delta [ret undefined]; try discriminate; try reflexivity.
    destruct (N.of_nat (length (m_formats dev)) <=? formatID)%N;
      [discriminate |].
    destruct (m_formats dev !! N.to_nat formatID) as [fmt |];
      cbv beta iota; try discriminate.
    destruct (stream_open createPlatformStream dev (width fmt) (height fmt)
                (fourcc fmt)) as [ok s'].
    destruct ok; cbn [negb]; cbv beta iota; [| discriminate].
    destruct (print_fourcc_done 4 (stream_getFOURCC s') ctx) as [tr4 ->].
    unfold storeStream, bind, gets, modify, ret, undefined.
    destruct (m_streamCounter ctx =? INT32_MAX); discriminate.
  - intros Hslot. rewrite (Hnull Hslot). reflexivity.
  - intros Hslot. split; [auto |].
    destruct (registry_miss_sentinels ctx id
                (EvLog LOG_ERR "Internal device pointer is NULL" []))
      as (Hname & Hnum & Hinfo); [right; auto |].
    rewrite Hname, Hnum. repeat split. intros info. now rewrite Hinfo.
Qed.

End Opening.

(** ** Stream properties *)

Section Properties.

Context {PS : PlatformStream}.

Lemma bind_pure {A B} (m : M A) (k : A -> M B) (ctx : Context) (a : A) :
  m ctx = Done a ctx [] -> bind m k ctx = k a ctx.
Proof. intros H. unfold bind. rewrite H. destruct (k a ctx); reflexivity. Qed.

Lemma lookupStreamByID_session (ctx : Context) (ID : Z) :
  lookupStreamByID ID ctx = Done (session_at ctx ID) ctx [].
Proof.
  unfold lookupStreamByID, session_at, bind, gets, ret.
  destruct (m_streams ctx !! ID) as [[s |] |]; reflexivity.
Qed.

(** C8. At a handle with no session in the table (negative, never
    allocated or closed) the three property calls return [false], leave
    the context and the out-parameters alone and call nothing on any
    stream.  At a handle with a session they make exactly one call, the
    corresponding method of that session, and return its result (the
    session object keeps whatever state the method left it in). *)
Theorem property_calls_delegate (ctx : Context) (ID : Z) (propertyID : N)
    (min max value : Z) (enable : bool) :
  (session_at ctx ID = None ->
   getStreamPropertyLimits ID propertyID min max ctx
     = Done (false, (min, max)) ctx [] /\
   setStreamProperty ID propertyID value ctx = Done false ctx [] /\
   setStreamAutoProperty ID propertyID enable ctx = Done false ctx [])
  /\
  (forall s, session_at ctx ID = Some s ->
   getStreamPropertyLimits ID propertyID min max ctx
     = (let '(ok, s', lim) := stream_getPropertyLimits s propertyID (min, max)
        in Done (ok, lim) (with_stream ctx ID s')
             [EvCall Call_getPropertyLimits (Some ID) s]) /\
   setStreamProperty ID propertyID value ctx
     = (let '(ok, s') := stream_setProperty s propertyID value
        in Done ok (with_stream ctx ID s')
             [EvCall Call_setProperty (Some ID) s]) /\
   setStreamAutoProperty ID propertyID enable ctx
     = (let '(ok, s') := stream_setAutoProperty s propertyID enable
        in Done ok (with_stream ctx ID s')
             [EvCall Call_setAutoProperty (Some ID) s])).
Proof.
  split.
  - intros Hnone.
    unfold getStreamPropertyLimits, setStreamProperty, setStreamAutoProperty.
    rewrite !(bind_pure _ _ _ _ (lookupStreamByID_session ctx ID)), Hnone.
    repeat split.
  - intros s Hsome.
    unfold getStreamPropertyLimits, setStreamProperty, setStreamAutoProperty.
    rewrite !(bind_pure _ _ _ _ (lookupStreamByID_session ctx ID)), Hsome.
    unfold bind, emit, stream_written, modify, ret, with_stream.
    destruct (stream_getPropertyLimits s propertyID (min, max))
      as [[ok1 s1] lim1].
    destruct (stream_setProperty s propertyID value) as [ok2 s2].
    destruct (stream_setAutoProperty s propertyID enable) as [ok3 s3].
    repeat split.
Qed.

End Properties.

(** ** Closing a stream *)

Section Closing.

Context {PS : PlatformStream}.

Lemma closeStream_negative (ctx : Context) (streamID : Z) :
  streamID < 0 ->
  closeStream streamID ctx =
  Done false ctx
    [EvLog LOG_ERR "closeStream was called with a negative stream ID\n" []].
Proof.
  intros Hneg. unfold closeStream. apply Z.ltb_lt in Hneg. rewrite Hneg.
  reflexivity.
Qed.

(** A session at the handle is destroyed and its entry erased. *)
Lemma closeStream_session (ctx : Context) (streamID : Z) (s : Stream) :
  0 <= streamID ->
  session_at ctx streamID = Some s ->
  closeStream streamID ctx =
  Done true (without_stream ctx streamID)
    [EvCall Call_delete (Some streamID) s].
Proof.
  intros Hpos Hs. unfold closeStream, session_at in *.
  apply Z.ltb_ge in Hpos. rewrite Hpos.
  unfold removeStream, bind, gets, delete_stream, emit, modify, ret.
  destruct (m_streams ctx !! streamID) as [[s0 |] |]; try discriminate.
  inversion Hs; subst. reflexivity.
Qed.

(** No entry at the handle: the failed removal is logged as an error and
    [true] is returned all the same. *)
Lemma closeStream_no_entry (ctx : Context) (streamID : Z) :
  0 <= streamID ->
  m_streams ctx !! streamID = None ->
  closeStream streamID ctx =
  Done true ctx
    [EvLog LOG_ERR "could not remove stream with ID %d from m_streams.\n"
       [ArgZ streamID]].
Proof.
  intros Hpos Hs. unfold closeStream.
  apply Z.ltb_ge in Hpos. rewrite Hpos.
  unfold removeStream, bind, gets, LOG, emit, ret. rewrite Hs. reflexivity.
Qed.

(** Closing touches no other handle. *)
Lemma closeStream_others (ctx ctx' : Context) (streamID other : Z) b tr :
  closeStream streamID ctx = Done b ctx' tr ->
  other <> streamID ->
  m_streams ctx' !! other = m_streams ctx !! other.
Proof.
  unfold closeStream.
  destruct (streamID <? 0); [intros H; inversion H; reflexivity |].
  unfold removeStream, bind, gets, delete_stream, LOG, emit, modify, ret.
  destruct (m_streams ctx !! streamID) as [[s |] |];
    intros H Hne; inversion H; subst; cbn [m_streams];
    try reflexivity; now apply lookup_delete_ne.
Qed.

(** After [closeStream] on a non-negative handle no session is left at
    that handle. *)
Lemma closeStream_closes (ctx ctx' : Context) (streamID : Z) b tr :
  0 <= streamID ->
  closeStream streamID ctx = Done b ctx' tr ->
  session_at ctx' streamID = None.
Proof.
  intros Hpos. unfold closeStream. apply Z.ltb_ge in Hpos. rewrite Hpos.
  unfold removeStream, bind, gets, delete_stream, LOG, emit, modify, ret.
  unfold session_at.
  destruct (m_streams ctx !! streamID) as [[s |] |] eqn:E;
    intros H; inversion H; subst; cbn [m_streams];
    rewrite ?lookup_delete_eq, ?E; reflexivity.
Qed.

End Closing.

(** C1. [closeStream] is specified to answer [false] for a handle with
    no session; the code answers [true] for every non-negative handle.  On a context with
    an empty stream table, closing handle 0 returns [true]; and closing
    the same handle twice returns [true] both times. *)
Theorem closeStream_unknown_handle_returns_true :
  session_at Sim.ctx0 0 = None /\
  returned (closeStream 0 Sim.ctx0) = Some true /\
  returned
    (session [ReqOpenStream 0 1; ReqCloseStream 0; ReqCloseStream 0] Sim.ctx0)
  = Some [RepHandle 0; RepBool true; RepBool true].
Proof. vm_compute. repeat split. Qed.

(** ** Queries on a stream *)

Section Queries.

Context {PS : PlatformStream}.

Ltac run_monad :=
  cbv beta iota delta
    [bind ret gets modify emit undefined LOG printf vector_at deref
     streams_index stream_written].

Lemma passes_size_check_leb (ctx : Context) (streamID : Z) :
  passes_size_check ctx streamID ->
  (streamID <? 0) = false /\
  (N.of_nat (size (m_streams ctx)) <=? to_uint32 streamID)%N = false.
Proof.
  intros [[Hpos Hmax] Hsize]. unfold INT32_MAX in Hmax. split.
  - now apply Z.ltb_ge.
  - apply N.leb_gt. unfold to_uint32.
    rewrite Z.mod_small by lia. lia.
Qed.

(** The bounds check of the queries compares the handle with the number
    of entries.  A handle that passes it and has no session reaches
    [m_streams[streamID]->...] with a null pointer. *)
Lemma query_without_session_faults (ctx : Context) (streamID : Z)
    (buf : list Byte.byte) (bytes : N) :
  passes_size_check ctx streamID ->
  session_at ctx streamID = None ->
  faulted (isOpenStream streamID ctx) = Some NullDereference /\
  faulted (captureFrame streamID buf bytes ctx) = Some NullDereference /\
  faulted (hasNewFrame streamID ctx) = Some NullDereference /\
  faulted (getStreamFrameCount streamID ctx) = Some NullDereference.
Proof.
  intros Hcheck Hnone.
  destruct (passes_size_check_leb _ _ Hcheck) as [Hneg Hsize].
  unfold isOpenStream, captureFrame, hasNewFrame, getStreamFrameCount.
  rewrite Hneg. run_monad.
  rewrite Hsize. unfold session_at in Hnone.
  destruct (m_streams ctx !! streamID) as [[s |] |];
    [discriminate | |]; repeat split.
Qed.

(** A handle that passes the bounds check and has a session is answered
    by that session. *)
Lemma isOpenStream_session (ctx : Context) (streamID : Z) (s : Stream) :
  passes_size_check ctx streamID ->
  session_at ctx streamID = Some s ->
  isOpenStream streamID ctx =
  Done (if stream_isOpen s then 1%N else 0%N) ctx
    [EvCall Call_isOpen (Some streamID) s].
Proof.
  intros Hcheck Hs.
  destruct (passes_size_check_leb _ _ Hcheck) as [Hneg Hsize].
  unfold isOpenStream. rewrite Hneg. run_monad.
  rewrite Hsize. unfold session_at in Hs.
  destruct (m_streams ctx !! streamID) as [[s0 |] |]; try discriminate.
  inversion Hs; subst. reflexivity.
Qed.

(** A handle at or beyond the number of entries is answered 0, whether or
    not it has a session. *)
Lemma isOpenStream_beyond_size (ctx : Context) (streamID : Z) :
  0 <= streamID <= INT32_MAX ->
  Z.of_nat (size (m_streams ctx)) <= streamID ->
  isOpenStream streamID ctx =
  Done 0%N ctx
    [EvLog LOG_ERR "isOpenStream was called with an out-of-bounds stream ID\n"
       []].
Proof.
  intros [Hpos Hmax] Hsize. unfold INT32_MAX in Hmax. unfold isOpenStream.
  apply Z.ltb_ge in Hpos as Hneg. rewrite Hneg. unfold bind, gets.
  assert (Hle : (N.of_nat (size (m_streams ctx)) <=? to_uint32 streamID)%N
                = true).
  { apply N.leb_le. unfold to_uint32. rewrite Z.mod_small by lia. lia. }
  rewrite Hle. reflexivity.
Qed.

End Queries.

(** C2. The queries are specified to answer their sentinel for every
    handle without a session.  After two streams are opened and the first
    is closed, handle 0 has no session but still
    passes the bounds check (the table has one entry), and [isOpenStream],
    [captureFrame], [hasNewFrame] and [getStreamFrameCount] on it all
    dereference a null stream pointer instead of returning their
    sentinel. *)
Theorem closed_handle_null_dereference :
  final (session Sim.open_open_close Sim.ctx0) = Some Sim.one_closed /\
  session_at Sim.one_closed 0 = None /\
  faulted (isOpenStream 0 Sim.one_closed) = Some NullDereference /\
  faulted (captureFrame 0 [] 0 Sim.one_closed) = Some NullDereference /\
  faulted (hasNewFrame 0 Sim.one_closed) = Some NullDereference /\
  faulted (getStreamFrameCount 0 Sim.one_closed) = Some NullDereference.
Proof. vm_compute. repeat split. Qed.

(** C3. [isOpenStream] is specified to report the state of every live
    session.  In the context of the previous theorem handle 1 refers to a live session whose state is open, and
    [isOpenStream] answers 0 for it, because 1 is not below the number of
    entries of the table. *)
Theorem isOpenStream_live_session_reported_closed :
  stream_isOpen <$> session_at Sim.one_closed 1 = Some true /\
  size (m_streams Sim.one_closed) = 1%nat /\
  returned (isOpenStream 1 Sim.one_closed) = Some 0%N.
Proof. vm_compute. repeat split. Qed.

(** * Concrete instances on the simulated platform *)

(** The registry of [Sim.ctx1] has three slots: ID 3 is out of range and
    slot 1 is null; both lookups miss, with different log lines. *)
Lemma registry_miss_not_found_witness :
  let range := EvLog LOG_ERR "Device with ID %d not found" [ArgN 3] in
  let null := EvLog LOG_ERR "Internal device pointer is NULL" [] in
  (registry_miss Sim.ctx1 3 range /\
   getDeviceName 3 Sim.ctx1 = Done None Sim.ctx1 [range] /\
   getNumFormats 3 Sim.ctx1 = Done (-1) Sim.ctx1 [range]) /\
  (registry_miss Sim.ctx1 1 null /\
   getDeviceName 1 Sim.ctx1 = Done None Sim.ctx1 [null] /\
   getNumFormats 1 Sim.ctx1 = Done (-1) Sim.ctx1 [null]).
Proof.
  intros range null.
  assert (Hrange : registry_miss Sim.ctx1 3 range).
  { left. repeat split. vm_compute. discriminate. }
  assert (Hnull : registry_miss Sim.ctx1 1 null).
  { right. split; reflexivity. }
  split.
  - split; [exact Hrange |].
    destruct (registry_miss_not_found Sim.ctx1 3 range Hrange)
      as (Hname & Hnum & _).
    split; assumption.
  - split; [exact Hnull |].
    destruct (registry_miss_not_found Sim.ctx1 1 null Hnull)
      as (Hname & Hnum & _).
    split; assumption.
Defined.

(** Format 1 of [Camera0] is there, format 2 is not. *)
Lemma getFormatInfo_exact_witness :
  let info := mkFormat 1 2 3 in
  registry_fits Sim.ctx0 /\
  format_available Sim.ctx0 0 1 /\
  (exists dev f,
     m_devices Sim.ctx0 !! N.to_nat 0 = Some (Some dev) /\
     m_formats dev !! N.to_nat 1 = Some f /\
     getFormatInfo 0 1 info Sim.ctx0 = Done (true, f) Sim.ctx0 []) /\
  ~ format_available Sim.ctx0 0 2 /\
  (exists tr, getFormatInfo 0 2 info Sim.ctx0 = Done (false, info) Sim.ctx0 tr).
Proof.
  intros info.
  assert (Hfit : registry_fits Sim.ctx0) by reflexivity.
  assert (Hyes : format_available Sim.ctx0 0 1).
  { split; [reflexivity |]. exists Sim.camera0. split; reflexivity. }
  assert (Hno : ~ format_available Sim.ctx0 0 2).
  { intros (_ & dev & Hdev & Hlt). vm_compute in Hdev.
    inversion Hdev; subst. vm_compute in Hlt. discriminate. }
  split; [exact Hfit |]. split; [exact Hyes |].
  split; [exact (proj1 (getFormatInfo_exact Sim.ctx0 0 1 info Hfit) Hyes) |].
  split; [exact Hno |].
  exact (proj2 (getFormatInfo_exact Sim.ctx0 0 2 info Hfit) Hno).
Defined.

(** Opening the device without pixels fails in the platform stream. *)
Lemma openStream_failure_allocates_nothing_witness :
  open_fails Sim.ctx1 2 0 /\
  returned (openStream 2 0 Sim.ctx1) = Some (-1) /\
  final (openStream 2 0 Sim.ctx1) = Some Sim.ctx1 /\
  forall rs : list request,
    returned (session (ReqOpenStream 2 0 :: rs) Sim.ctx1) =
      cons (RepHandle (-1)) <$> returned (session rs Sim.ctx1) /\
    final (session (ReqOpenStream 2 0 :: rs) Sim.ctx1) =
      final (session rs Sim.ctx1).
Proof.
  assert (Hfail : open_fails Sim.ctx1 2 0).
  { right. exists Sim.broken. split; [reflexivity |].
    right. exists (mkFormat 0 0 Sim.YUYV). split; reflexivity. }
  split; [exact Hfail |].
  exact (openStream_failure_allocates_nothing Sim.ctx1 2 0 Hfail).
Defined.

(** Open, close, then open again on the same device: handles 0 and 1. *)
Lemma handles_strictly_increasing_witness :
  let rs := [ReqOpenStream 0 1; ReqCloseStream 0; ReqOpenStream 0 1] in
  let hs := opened_handles (answers rs Sim.ctx0) in
  hs = [0; 1] /\
  hs = seqZ 0 (Z.of_nat (length hs)) /\
  StronglySorted Z.lt hs /\
  NoDup hs.
Proof.
  intros rs hs. split; [reflexivity |].
  exact (handles_strictly_increasing (PS := Sim.platform)
           [Some Sim.camera0] rs).
Defined.

(** In [Sim.one_closed] handle 0 has no session and handle 1 has one. *)
Lemma property_calls_delegate_witness :
  session_at Sim.one_closed 0 = None /\
  setStreamProperty 0 1 50 Sim.one_closed = Done false Sim.one_closed [] /\
  exists s,
    session_at Sim.one_closed 1 = Some s /\
    fst (stream_setProperty s 1 50) = true /\
    setStreamProperty 1 1 50 Sim.one_closed =
    (let '(ok, s') := stream_setProperty s 1 50 in
     Done ok (with_stream Sim.one_closed 1 s')
       [EvCall Call_setProperty (Some 1) s]).
Proof.
  assert (Hnone : session_at Sim.one_closed 0 = None) by reflexivity.
  split; [exact Hnone |]. split.
  - apply (property_calls_delegate Sim.one_closed 0 1 0 0 50 true).
    exact Hnone.
  - eexists. split; [reflexivity |]. split; [reflexivity |].
    apply (property_calls_delegate Sim.one_closed 1 1 0 0 50 true).
    reflexivity.
Defined.

(** Slot 1 of [Sim.ctx1] is null: [openStream] dereferences it. *)
Lemma openStream_null_descriptor_witness :
  m_devices Sim.ctx1 !! N.to_nat 1 = Some None /\
  faulted (openStream 1 0 Sim.ctx1) = Some NullDereference /\
  openStream 1 0 Sim.ctx1 = Fault NullDereference [] /\
  returned (getDeviceName 1 Sim.ctx1) = Some None /\
  returned (getNumFormats 1 Sim.ctx1) = Some (-1).
Proof.
  assert (Hslot : m_devices Sim.ctx1 !! N.to_nat 1 = Some None)
    by reflexivity.
  destruct (openStream_null_descriptor Sim.ctx1 1 0) as [Hiff Hcmp].
  split; [exact Hslot |]. split; [apply Hiff; exact Hslot |].
  destruct (Hcmp Hslot) as (Hopen & Hname & Hnum & _).
  repeat split; assumption.
Defined.

(** * Further properties *)

(** ** FOURCC rendering, continued *)

(** A 32-bit value is the sum of its four bytes. *)
Lemma bytes_compose (v : N) :
  (v < UINT32_MOD)%N ->
  v = (byte_of 0 v + 256 * byte_of 1 v + 65536 * byte_of 2 v
       + 16777216 * byte_of 3 v)%N.
Proof.
  unfold UINT32_MOD, byte_of. intros Hv.
  change (2 ^ (8 * N.of_nat 0))%N with 1%N.
  change (2 ^ (8 * N.of_nat 1))%N with 256%N.
  change (2 ^ (8 * N.of_nat 2))%N with 65536%N.
  change (2 ^ (8 * N.of_nat 3))%N with 16777216%N.
  rewrite N.div_1_r.
  change 16777216%N with (256 * 256 * 256)%N at 2.
  change 65536%N with (256 * 256)%N at 2.
  rewrite <- !N.Div0.div_div.
  set (q1 := (v / 256)%N). set (q2 := (q1 / 256)%N). set (q3 := (q2 / 256)%N).
  pose proof (N.div_mod' v 256) as E1. fold q1 in E1.
  pose proof (N.div_mod' q1 256) as E2. fold q2 in E2.
  pose proof (N.div_mod' q2 256) as E3. fold q3 in E3.
  pose proof (N.mod_lt v 256 ltac:(discriminate)) as L1.
  pose proof (N.mod_lt q1 256 ltac:(discriminate)) as L2.
  pose proof (N.mod_lt q2 256 ltac:(discriminate)) as L3.
  clearbody q3.
  generalize dependent (q2 mod 256)%N. intros r2 E3 L3.
  clearbody q2.
  generalize dependent (q1 mod 256)%N. intros r1 E2 L2.
  clearbody q1.
  generalize dependent (v mod 256)%N. intros r0 E1 L1.
  assert (Hq3 : (q3 < 256)%N) by lia.
  rewrite (N.mod_small q3 256) by assumption.
  lia.
Qed.

Lemma fourCCToString_byte (v1 v2 : N) (i : nat) :
  (i < 4)%nat ->
  fourCCToString v1 = fourCCToString v2 -> byte_of i v1 = byte_of i v2.
Proof.
  intros Hi Heq.
  assert (Hget : String.get i (fourCCToString v1)
                 = String.get i (fourCCToString v2)) by now rewrite Heq.
  rewrite !fourCCToString_unfold in Hget.
  destruct i as [| [| [| [| i]]]]; try lia; cbn in Hget;
    inversion Hget as [Hc];
    apply (f_equal N_of_ascii) in Hc;
    rewrite !N_ascii_embedding in Hc by apply byte_of_lt; exact Hc.
Qed.

(** X1. Two 32-bit pixel-format tags that [fourCCToString] renders as the
    same string are the same tag: the rendering loses nothing. *)
Theorem fourCCToString_injective (v1 v2 : N) :
  (v1 < UINT32_MOD)%N -> (v2 < UINT32_MOD)%N ->
  fourCCToString v1 = fourCCToString v2 -> v1 = v2.
Proof.
  intros H1 H2 Heq.
  rewrite (bytes_compose v1 H1), (bytes_compose v2 H2).
  rewrite (fourCCToString_byte v1 v2 0), (fourCCToString_byte v1 v2 1),
    (fourCCToString_byte v1 v2 2), (fourCCToString_byte v1 v2 3);
    auto with lia.
Qed.

Lemma fourCCToString_injective_witness :
  (Sim.YUYV < UINT32_MOD)%N /\
  fourCCToString Sim.YUYV = fourCCToString 1448695129 /\
  Sim.YUYV = 1448695129%N.
Proof.
  assert (H : (Sim.YUYV < UINT32_MOD)%N) by reflexivity.
  split; [exact H |]. split; [reflexivity |].
  exact (fourCCToString_injective Sim.YUYV 1448695129 H H eq_refl).
Defined.

Section DebugOutput.

Context {PS : PlatformStream}.

(** X2. The four characters that the debug loop of [openStream] prints
    for a FOURCC are, in order, the characters of [fourCCToString] of the
    same value; the loop leaves the context alone. *)
Theorem print_fourcc_matches_fourCCToString (fcc : N) (ctx : Context) :
  print_fourcc 4 fcc ctx =
  Done tt ctx
    (List.map (fun c => EvPrintf "%c" [ArgN (N_of_ascii c)])
       (list_ascii_of_string (fourCCToString fcc))).
Proof.
  rewrite fourCCToString_unfold.
  cbn [list_ascii_of_string List.map].
  rewrite !N_ascii_embedding by apply byte_of_lt.
  cbn [print_fourcc]. unfold bind, printf, emit, ret. cbn [app].
  rewrite !N.shiftr_shiftr.
  change fcc with (N.shiftr fcc (8 * 0)) at 1.
  change (8 + 8)%N with (8 * 2)%N.
  change (8 * 2 + 8)%N with (8 * 3)%N.
  change 8%N with (8 * 1)%N at 2.
  rewrite !shiftr_byte. reflexivity.
Qed.

End DebugOutput.

(** ** The device registry, continued *)

Section RegistryLookups.

Context {PS : PlatformStream}.

Lemma slot_out_of_range {A} (l : list A) (id : N) :
  l !! N.to_nat id = None -> (N.of_nat (length l) <=? id)%N = true.
Proof. intros Hl. apply lookup_ge_None in Hl. apply N.leb_le. lia. Qed.

Lemma getDeviceName_cases (ctx : Context) (id : N) :
  getDeviceName id ctx =
  match m_devices ctx !! N.to_nat id with
  | None =>
      Done None ctx [EvLog LOG_ERR "Device with ID %d not found" [ArgN id]]
  | Some None =>
      Done None ctx [EvLog LOG_ERR "Internal device pointer is NULL" []]
  | Some (Some dev) => Done (Some (m_name dev)) ctx []
  end.
Proof.
  unfold getDeviceName, bind, gets, vector_at.
  destruct (m_devices ctx !! N.to_nat id) as [p |] eqn:E.
  - rewrite (slot_in_range _ _ _ E). destruct p; reflexivity.
  - rewrite (slot_out_of_range _ _ E). reflexivity.
Qed.

Lemma getNumFormats_cases (ctx : Context) (id : N) :
  getNumFormats id ctx =
  match m_devices ctx !! N.to_nat id with
  | None =>
      Done (-1) ctx [EvLog LOG_ERR "Device with ID %d not found" [ArgN id]]
  | Some None =>
      Done (-1) ctx [EvLog LOG_ERR "Internal device pointer is NULL" []]
  | Some (Some dev) =>
      Done (size_to_int32 (N.of_nat (length (m_formats dev)))) ctx []
  end.
Proof.
  unfold getNumFormats, bind, gets, vector_at.
  destruct (m_devices ctx !! N.to_nat id) as [p |] eqn:E.
  - rewrite (slot_in_range _ _ _ E). destruct p; reflexivity.
  - rewrite (slot_out_of_range _ _ E). reflexivity.
Qed.

Lemma getFormatInfo_cases (ctx : Context) (id formatID : N)
    (info : CapFormatInfo) :
  exists tr,
    getFormatInfo id formatID info ctx =
    match m_devices ctx !! N.to_nat id with
    | Some (Some dev) =>
        match m_formats dev !! N.to_nat formatID with
        | Some f => Done (true, f) ctx []
        | None => Done (false, info) ctx tr
        end
    | _ => Done (false, info) ctx tr
    end.
Proof.
  unfold getFormatInfo, bind, gets, vector_at.
  destruct (m_devices ctx !! N.to_nat id) as [p |] eqn:E.
  - rewrite (slot_in_range _ _ _ E). destruct p as [dev |];
      [| eexists; reflexivity]. cbv beta iota delta [ret].
    destruct (m_formats dev !! N.to_nat formatID) as [f |] eqn:F.
    + rewrite (slot_in_range_ltb _ _ _ F). exists []. reflexivity.
    + apply slot_out_of_range in F. apply N.leb_le in F.
      apply N.ltb_ge in F. rewrite F. eexists. reflexivity.
  - rewrite (slot_out_of_range _ _ E). eexists. reflexivity.
Qed.

(** X3. The registry lookups are read-only and cannot fault: for every
    device ID, format ID and content of [*info], [getDeviceCount],
    [getDeviceName], [getNumFormats] and [getFormatInfo] return with the
    context exactly as it was; the indexing of [m_devices] and [m_formats]
    is always inside the vector. *)
Theorem registry_lookups_read_only (ctx : Context) (id formatID : N)
    (info : CapFormatInfo) :
  final (getDeviceCount ctx) = Some ctx /\
  final (getDeviceName id ctx) = Some ctx /\
  final (getNumFormats id ctx) = Some ctx /\
  final (getFormatInfo id formatID info ctx) = Some ctx.
Proof.
  split; [reflexivity |].
  rewrite getDeviceName_cases, getNumFormats_cases.
  destruct (getFormatInfo_cases ctx id formatID info) as [tr ->].
  destruct (m_devices ctx !! N.to_nat id) as [[dev |] |];
    repeat split; try reflexivity.
  destruct (m_formats dev !! N.to_nat formatID); reflexivity.
Qed.

Lemma deviceCount_le (ctx : Context) :
  (deviceCount ctx <= N.of_nat (length (m_devices ctx)))%N.
Proof.
  unfold deviceCount, getDeviceCount, bind, gets, ret, size_to_uint32.
  apply N.Div0.mod_le.
Qed.

(** X4. Every device ID below [getDeviceCount()] is inside the registry:
    [getDeviceName] answers it from its slot, with the name of the
    descriptor when there is one, and never with the "not found" error
    of an out-of-range ID. *)
Theorem getDeviceName_below_count (ctx : Context) (id : N) :
  (id < deviceCount ctx)%N ->
  exists p,
    m_devices ctx !! N.to_nat id = Some p /\
    returned (getDeviceName id ctx) = Some (m_name <$> p) /\
    trace (getDeviceName id ctx) =
      match p with
      | Some _ => []
      | None => [EvLog LOG_ERR "Internal device pointer is NULL" []]
      end.
Proof.
  intros Hid. pose proof (deviceCount_le ctx) as Hle.
  destruct (slot_exists (m_devices ctx) id) as [p Hp]; [lia |].
  exists p. rewrite getDeviceName_cases, Hp.
  destruct p; repeat split.
Qed.

(** X5. The formats of a device can be enumerated: for a present
    descriptor with at most [INT32_MAX] formats, [getNumFormats] returns
    the number [n] of formats, and [getFormatInfo] succeeds exactly for
    the format IDs below [n], each time with the format stored at that
    position. *)
Theorem formats_enumerable (ctx : Context) (id : N) (dev : deviceInfo) :
  m_devices ctx !! N.to_nat id = Some (Some dev) ->
  Z.of_nat (length (m_formats dev)) <= INT32_MAX ->
  exists n,
    getNumFormats id ctx = Done n ctx [] /\
    n = Z.of_nat (length (m_formats dev)) /\
    forall formatID info,
      (Z.of_N formatID < n ->
       exists f, m_formats dev !! N.to_nat formatID = Some f /\
                 getFormatInfo id formatID info ctx = Done (true, f) ctx [])
      /\
      (n <= Z.of_N formatID ->
       returned (getFormatInfo id formatID info ctx) = Some (false, info)).
Proof.
  intros Hdev Hmax. exists (Z.of_nat (length (m_formats dev))).
  split; [| split; [reflexivity |]].
  - rewrite getNumFormats_cases, Hdev. f_equal.
    unfold size_to_int32, UINT32_MOD.
    unfold INT32_MAX in Hmax.
    rewrite N.mod_small by lia.
    destruct (Z.of_N (N.of_nat (length (m_formats dev))) <=? INT32_MAX)
      eqn:E; [lia |].
    apply Z.leb_gt in E. unfold INT32_MAX in E. lia.
  - intros formatID info.
    destruct (getFormatInfo_cases ctx id formatID info) as [tr ->].
    rewrite Hdev. split.
    + intros Hlt.
      destruct (slot_exists (m_formats dev) formatID) as [f Hf]; [lia |].
      exists f. rewrite Hf. split; reflexivity.
    + intros Hge.
      assert (Hnone : m_formats dev !! N.to_nat formatID = None)
        by (apply lookup_ge_None; lia).
      rewrite Hnone. reflexivity.
Qed.

End RegistryLookups.

(** ** What a call does to the stream table *)

Section TableEffects.

Context {PS : PlatformStream}.

Ltac run_monad :=
  cbv beta iota delta
    [bind ret gets modify emit undefined LOG printf vector_at deref
     streams_index stream_written lookupStreamByID removeStream
     delete_stream].

Lemma context_eta (ctx : Context) :
  mkContext (m_devices ctx) (m_streams ctx) (m_streamCounter ctx) = ctx.
Proof. destruct ctx; reflexivity. Qed.

(** The three read-only queries leave the context as it was. *)
Lemma isOpenStream_keeps (ctx ctx' : Context) (h : Z) n tr :
  isOpenStream h ctx = Done n ctx' tr -> ctx' = ctx.
Proof.
  unfold isOpenStream. run_monad.
  destruct (h <? 0); [intros H; inversion H; reflexivity |].
  destruct (N.of_nat (size (m_streams ctx)) <=? to_uint32 h)%N;
    [intros H; inversion H; reflexivity |].
  destruct (m_streams ctx !! h) as [[s |] |]; intros H; inversion H.
  reflexivity.
Qed.

Lemma hasNewFrame_keeps (ctx ctx' : Context) (h : Z) b tr :
  hasNewFrame h ctx = Done b ctx' tr -> ctx' = ctx.
Proof.
  unfold hasNewFrame. run_monad.
  destruct (h <? 0); [intros H; inversion H; reflexivity |].
  destruct (N.of_nat (size (m_streams ctx)) <=? to_uint32 h)%N;
    [intros H; inversion H; reflexivity |].
  destruct (m_streams ctx !! h) as [[s |] |]; intros H; inversion H.
  reflexivity.
Qed.

Lemma getStreamFrameCount_keeps (ctx ctx' : Context) (h : Z) n tr :
  getStreamFrameCount h ctx = Done n ctx' tr -> ctx' = ctx.
Proof.
  unfold getStreamFrameCount. run_monad.
  destruct (h <? 0); [intros H; inversion H; reflexivity |].
  destruct (N.of_nat (size (m_streams ctx)) <=? to_uint32 h)%N;
    [intros H; inversion H; reflexivity |].
  destruct (m_streams ctx !! h) as [[s |] |]; intros H; inversion H.
  reflexivity.
Qed.

(** A call that changes a stream object writes it back at its handle. *)
Lemma captureFrame_writes (ctx ctx' : Context) (h : Z) buf bytes r tr :
  captureFrame h buf bytes ctx = Done r ctx' tr ->
  ctx' = ctx \/
  exists s s', m_streams ctx !! h = Some (Some s) /\
               ctx' = with_stream ctx h s'.
Proof.
  unfold captureFrame. run_monad.
  destruct (h <? 0); [intros H; inversion H; auto |].
  destruct (N.of_nat (size (m_streams ctx)) <=? to_uint32 h)%N;
    [intros H; inversion H; auto |].
  destruct (m_streams ctx !! h) as [[s |] |] eqn:E;
    try (intros H; inversion H; fail).
  destruct (stream_captureFrame s buf bytes) as [[ok s'] buf'].
  intros H; inversion H; subst. right. exists s, s'. auto.
Qed.

Lemma getStreamPropertyLimits_writes (ctx ctx' : Context) (h : Z)
    pid mn mx r tr :
  getStreamPropertyLimits h pid mn mx ctx = Done r ctx' tr ->
  ctx' = ctx \/
  exists s s', m_streams ctx !! h = Some (Some s) /\
               ctx' = with_stream ctx h s'.
Proof.
  unfold getStreamPropertyLimits. run_monad.
  destruct (m_streams ctx !! h) as [[s |] |] eqn:E;
    try (intros H; inversion H; auto; fail).
  destruct (stream_getPropertyLimits s pid (mn, mx)) as [[ok s'] lim].
  intros H; inversion H; subst. right. exists s, s'. auto.
Qed.

Lemma setStreamAutoProperty_writes (ctx ctx' : Context) (h : Z)
    pid en r tr :
  setStreamAutoProperty h pid en ctx = Done r ctx' tr ->
  ctx' = ctx \/
  exists s s', m_streams ctx !! h = Some (Some s) /\
               ctx' = with_stream ctx h s'.
Proof.
  unfold setStreamAutoProperty. run_monad.
  destruct (m_streams ctx !! h) as [[s |] |] eqn:E;
    try (intros H; inversion H; auto; fail).
  destruct (stream_setAutoProperty s pid en) as [ok s'].
  intros H; inversion H; subst. right. exists s, s'. auto.
Qed.

Lemma setStreamProperty_writes (ctx ctx' : Context) (h : Z) pid v r tr :
  setStreamProperty h pid v ctx = Done r ctx' tr ->
  ctx' = ctx \/
  exists s s', m_streams ctx !! h = Some (Some s) /\
               ctx' = with_stream ctx h s'.
Proof.
  unfold setStreamProperty. run_monad.
  destruct (m_streams ctx !! h) as [[s |] |] eqn:E;
    try (intros H; inversion H; auto; fail).
  destruct (stream_setProperty s pid v) as [ok s'].
  intros H; inversion H; subst. right. exists s, s'. auto.
Qed.

(** [closeStream] on any handle: the answer, the context and the
    destructor calls. *)
Lemma closeStream_cases (ctx : Context) (h : Z) :
  exists tr,
    closeStream h ctx =
      Done (negb (h <? 0)) (if h <? 0 then ctx else without_stream ctx h) tr
    /\
    deleted_handles tr =
      (if h <? 0 then []
       else match session_at ctx h with Some _ => [h] | None => [] end).
Proof.
  unfold closeStream, session_at, without_stream. run_monad.
  destruct (h <? 0); [eexists; split; reflexivity |].
  destruct (m_streams ctx !! h) as [[s |] |] eqn:E.
  - eexists. split; reflexivity.
  - eexists. split; reflexivity.
  - rewrite (delete_id _ _ E), context_eta. eexists. split; reflexivity.
Qed.

(** The effect of one call on the context. *)
Lemma serve_effect (r : request) (ctx ctx' : Context) rep tr :
  serve r ctx = Done rep ctx' tr ->
  ctx' = ctx
  \/ (exists h s s',
        touched r ctx = Some h /\ m_streams ctx !! h = Some (Some s) /\
        ctx' = with_stream ctx h s')
  \/ (exists h, r = ReqCloseStream h /\ ctx' = without_stream ctx h)
  \/ (exists id fid s',
        r = ReqOpenStream id fid /\ m_streamCounter ctx <> INT32_MAX /\
        ctx' = mkContext (m_devices ctx)
                 (map_insert (m_streamCounter ctx) (Some s') (m_streams ctx))
                 (m_streamCounter ctx + 1)).
Proof.
  destruct r; cbn [serve]; intros H;
    apply bind_ret_inv in H as (a & t & E & ->).
  - left. inversion E; reflexivity.
  - left. rewrite getDeviceName_cases in E.
    destruct (m_devices ctx !! N.to_nat id) as [[dev |] |];
      inversion E; reflexivity.
  - left. rewrite getNumFormats_cases in E.
    destruct (m_devices ctx !! N.to_nat id) as [[dev |] |];
      inversion E; reflexivity.
  - left. destruct (getFormatInfo_cases ctx id formatID info) as [t' E'].
    rewrite E' in E.
    destruct (m_devices ctx !! N.to_nat id) as [[dev |] |];
      [destruct (m_formats dev !! N.to_nat formatID) | |];
      inversion E; reflexivity.
  - destruct (openStream_returns _ _ _ _ _ _ E)
      as [[-> ->] | (-> & Hne & s & ->)]; [left; reflexivity |].
    right. right. right. exists id, formatID, s. auto.
  - destruct (closeStream_cases ctx streamID) as (t' & E' & _).
    rewrite E' in E. inversion E; subst.
    destruct (streamID <? 0); [left; reflexivity |].
    right. right. left. exists streamID. auto.
  - left. eapply isOpenStream_keeps; eassumption.
  - destruct (captureFrame_writes _ _ _ _ _ _ _ E)
      as [-> | (s & s' & Hs & ->)]; [left; reflexivity |].
    right. left. exists streamID, s, s'. auto.
  - left. eapply hasNewFrame_keeps; eassumption.
  - left. eapply getStreamFrameCount_keeps; eassumption.
  - destruct (getStreamPropertyLimits_writes _ _ _ _ _ _ _ _ E)
      as [-> | (s & s' & Hs & ->)]; [left; reflexivity |].
    right. left. exists streamID, s, s'. auto.
  - destruct (setStreamAutoProperty_writes _ _ _ _ _ _ _ E)
      as [-> | (s & s' & Hs & ->)]; [left; reflexivity |].
    right. left. exists streamID, s, s'. auto.
  - destruct (setStreamProperty_writes _ _ _ _ _ _ _ E)
      as [-> | (s & s' & Hs & ->)]; [left; reflexivity |].
    right. left. exists streamID, s, s'. auto.
Qed.

End TableEffects.

(** ** Invariants of the context *)

Section Invariants.

Context {PS : PlatformStream}.

Lemma serve_keeps_devices (r : request) (ctx ctx' : Context) rep tr :
  serve r ctx = Done rep ctx' tr -> m_devices ctx' = m_devices ctx.
Proof.
  intros H. destruct (serve_effect _ _ _ _ _ H)
    as [-> | [(h & s & s' & _ & _ & ->) | [(h & _ & ->)
       | (id & fid & s' & _ & _ & ->)]]]; reflexivity.
Qed.

Lemma session_keeps_devices (rs : list request) :
  forall (ctx ctx' : Context) reps tr,
    session rs ctx = Done reps ctx' tr -> m_devices ctx' = m_devices ctx.
Proof.
  induction rs as [| r rs IH]; intros ctx ctx' reps tr H.
  - inversion H; reflexivity.
  - cbn [session] in H. unfold bind at 1 in H.
    destruct (serve r ctx) as [rep c1 t1 |] eqn:E1; [| discriminate].
    unfold bind at 1 in H.
    destruct (session rs c1) as [reps' c2 t2 |] eqn:E2; [| discriminate].
    cbv beta iota delta [ret] in H. inversion H; subst.
    rewrite (IH _ _ _ _ E2). eapply serve_keeps_devices. eassumption.
Qed.

(** X6. No sequence of public calls changes the device registry: after
    any calls that return, [m_devices] is what it was, and so are the
    answers of [getDeviceCount], [getDeviceName], [getNumFormats] and
    [getFormatInfo] for every device and format ID. *)
Theorem registry_never_changes (rs : list request) (ctx ctx' : Context)
    reps tr :
  session rs ctx = Done reps ctx' tr ->
  m_devices ctx' = m_devices ctx /\
  deviceCount ctx' = deviceCount ctx /\
  forall id formatID info,
    returned (getDeviceName id ctx') = returned (getDeviceName id ctx) /\
    returned (getNumFormats id ctx') = returned (getNumFormats id ctx) /\
    returned (getFormatInfo id formatID info ctx') =
      returned (getFormatInfo id formatID info ctx).
Proof.
  intros H. apply session_keeps_devices in H. split; [assumption |]. split.
  - unfold deviceCount, getDeviceCount, bind, gets, ret. now rewrite H.
  - intros id formatID info.
    rewrite !getDeviceName_cases, !getNumFormats_cases.
    destruct (getFormatInfo_cases ctx id formatID info) as [t1 ->].
    destruct (getFormatInfo_cases ctx' id formatID info) as [t2 ->].
    rewrite H.
    destruct (m_devices ctx !! N.to_nat id) as [[dev |] |];
      repeat split; try reflexivity.
    destruct (m_formats dev !! N.to_nat formatID); reflexivity.
Qed.

Lemma table_ok_new (devices : list (option deviceInfo)) :
  table_ok (Context_new devices).
Proof.
  split; [cbn; lia |]. intros k p H. cbn in H.
  rewrite lookup_empty in H. discriminate.
Qed.

Lemma serve_table_ok (r : request) (ctx ctx' : Context) rep tr :
  table_ok ctx -> serve r ctx = Done rep ctx' tr -> table_ok ctx'.
Proof.
  intros [Hpos Hok] H.
  destruct (serve_effect _ _ _ _ _ H)
    as [-> | [(h & s & s' & _ & Hs & ->) | [(h & _ & ->)
       | (id & fid & s' & _ & Hmax & ->)]]].
  - split; assumption.
  - split; [assumption |]. intros k p. cbn.
    destruct (decide (h = k)) as [<- | Hne].
    + rewrite lookup_insert_eq. intros Hp; inversion Hp; subst.
      split; [apply (Hok _ _ Hs) | eauto].
    + rewrite lookup_insert_ne by assumption. apply Hok.
  - split; [assumption |]. intros k p. cbn.
    intros Hp. apply lookup_delete_Some in Hp as [_ Hp]. eapply Hok, Hp.
  - split; [cbn; lia |]. intros k p. cbn. unfold map_insert.
    destruct (m_streams ctx !! m_streamCounter ctx) eqn:E.
    + intros Hp. destruct (Hok _ _ Hp). split; [lia | assumption].
    + destruct (decide (m_streamCounter ctx = k)) as [<- | Hne].
      * rewrite lookup_insert_eq. intros Hp; inversion Hp; subst.
        split; [lia | eauto].
      * rewrite lookup_insert_ne by assumption.
        intros Hp. destruct (Hok _ _ Hp). split; [lia | assumption].
Qed.

(** X7. The stream table stays well formed: on a fresh context, and
    after any sequence of public calls that return from a well-formed
    context, the counter is not negative, every key of [m_streams] is a
    handle below the counter, and no entry is a null pointer. *)
Theorem table_ok_invariant (devices : list (option deviceInfo))
    (rs : list request) :
  table_ok (Context_new devices) /\
  forall (ctx ctx' : Context) reps tr,
    table_ok ctx -> session rs ctx = Done reps ctx' tr -> table_ok ctx'.
Proof.
  split; [apply table_ok_new |].
  induction rs as [| r rs IH]; intros ctx ctx' reps tr Hok H.
  - inversion H; subst. assumption.
  - cbn [session] in H. unfold bind at 1 in H.
    destruct (serve r ctx) as [rep c1 t1 |] eqn:E1; [| discriminate].
    unfold bind at 1 in H.
    destruct (session rs c1) as [reps' c2 t2 |] eqn:E2; [| discriminate].
    cbv beta iota delta [ret] in H. inversion H; subst.
    eapply IH; [| eassumption]. eapply serve_table_ok; eassumption.
Qed.

(** X8. A call writes at most one key of the stream table: the counter
    for [openStream], its handle for a call that takes one, none for a
    registry lookup.  The entries of all other keys, hence all other
    sessions, are what they were. *)
Theorem serve_touches_one_handle (r : request) (ctx ctx' : Context)
    rep tr (k : Z) :
  serve r ctx = Done rep ctx' tr ->
  touched r ctx <> Some k ->
  m_streams ctx' !! k = m_streams ctx !! k.
Proof.
  intros H Hk.
  destruct (serve_effect _ _ _ _ _ H)
    as [-> | [(h & s & s' & Ht & Hs & ->) | [(h & -> & ->)
       | (id & fid & s' & -> & Hmax & ->)]]]; cbn in *.
  - reflexivity.
  - apply lookup_insert_ne. congruence.
  - apply lookup_delete_ne. congruence.
  - unfold map_insert.
    destruct (m_streams ctx !! m_streamCounter ctx); [reflexivity |].
    apply lookup_insert_ne. congruence.
Qed.

(** X9. From a well-formed context, an [openStream] whose descriptor is
    present, whose format exists and whose platform stream opens returns
    the current counter as handle; afterwards the table holds the opened
    stream at that handle, the counter is one more, and the context is
    well formed again. *)
Theorem openStream_stores_session (ctx : Context) (id formatID : N)
    (dev : deviceInfo) (fmt : CapFormatInfo) (s' : Stream) :
  table_ok ctx ->
  m_devices ctx !! N.to_nat id = Some (Some dev) ->
  m_formats dev !! N.to_nat formatID = Some fmt ->
  stream_open createPlatformStream dev (width fmt) (height fmt) (fourcc fmt)
    = (true, s') ->
  m_streamCounter ctx <> INT32_MAX ->
  exists ctx' tr,
    openStream id formatID ctx = Done (m_streamCounter ctx) ctx' tr /\
    session_at ctx' (m_streamCounter ctx) = Some s' /\
    m_streamCounter ctx' = m_streamCounter ctx + 1 /\
    table_ok ctx'.
Proof.
  intros Hok Hdev Hfmt Hopen Hmax.
  destruct (openStream_succeeds ctx id formatID dev fmt s'
              Hdev Hfmt Hopen Hmax) as [tr Hres].
  eexists. exists tr. split; [exact Hres |].
  assert (Hfree : m_streams ctx !! m_streamCounter ctx = None).
  { destruct (m_streams ctx !! m_streamCounter ctx) as [p |] eqn:E;
      [| reflexivity].
    destruct Hok as [_ Hok]. destruct (Hok _ _ E). lia. }
  split; [| split; [reflexivity |]].
  - unfold session_at, map_insert. cbn. rewrite Hfree.
    now rewrite lookup_insert_eq.
  - eapply (serve_table_ok (ReqOpenStream id formatID)); [exact Hok |].
    cbn [serve]. unfold bind. rewrite Hres. reflexivity.
Qed.

End Invariants.

(** ** Closing, continued *)

Section ClosingEffects.

Context {PS : PlatformStream}.

(** X10. [closeStream] never faults.  It answers [false] for a negative
    handle and changes nothing; for any other handle it answers [true],
    erases the entry of that handle only, runs the destructor of the
    session that was there (once, and only if there was one), and leaves
    the registry, the counter and every other entry alone. *)
Theorem closeStream_effect (ctx : Context) (h : Z) :
  let ctx' := if h <? 0 then ctx else without_stream ctx h in
  exists tr,
    closeStream h ctx = Done (negb (h <? 0)) ctx' tr /\
    deleted_handles tr =
      (if h <? 0 then []
       else match session_at ctx h with Some _ => [h] | None => [] end) /\
    m_devices ctx' = m_devices ctx /\
    m_streamCounter ctx' = m_streamCounter ctx /\
    forall k, k <> h -> m_streams ctx' !! k = m_streams ctx !! k.
Proof.
  intros ctx'. destruct (closeStream_cases ctx h) as (tr & Hres & Hdel).
  exists tr. split; [exact Hres |]. split; [exact Hdel |].
  subst ctx'. destruct (h <? 0); repeat split; try reflexivity.
  intros k Hk. cbn. now apply lookup_delete_ne.
Qed.

(** X11. A handle that was closed has no properties any more: after
    [closeStream] on a non-negative handle returned, the three property
    calls on that handle answer [false], call nothing and change
    nothing. *)
Theorem closed_handle_has_no_properties (ctx ctx' : Context) (h : Z) b tr
    (propertyID : N) (min max value : Z) (enable : bool) :
  0 <= h ->
  closeStream h ctx = Done b ctx' tr ->
  getStreamPropertyLimits h propertyID min max ctx'
    = Done (false, (min, max)) ctx' [] /\
  setStreamProperty h propertyID value ctx' = Done false ctx' [] /\
  setStreamAutoProperty h propertyID enable ctx' = Done false ctx' [].
Proof.
  intros Hpos Hclose.
  pose proof (closeStream_closes _ _ _ _ _ Hpos Hclose) as Hnone.
  unfold getStreamPropertyLimits, setStreamProperty, setStreamAutoProperty.
  rewrite !(bind_pure _ _ _ _ (lookupStreamByID_session ctx' h)), Hnone.
  repeat split.
Qed.

(** X12. No stream object is deleted twice: once [closeStream] on a
    non-negative handle has returned, closing the same handle again runs
    no destructor and leaves the context as it is. *)
Theorem closeStream_twice_deletes_once (ctx ctx' : Context) (h : Z) b tr :
  0 <= h ->
  closeStream h ctx = Done b ctx' tr ->
  exists tr',
    closeStream h ctx' = Done true ctx' tr' /\ deleted_handles tr' = [].
Proof.
  intros Hpos Hclose.
  pose proof (closeStream_closes _ _ _ _ _ Hpos Hclose) as Hnone.
  destruct (closeStream_cases ctx h) as (t1 & Hfirst & _).
  rewrite Hfirst in Hclose.
  destruct (closeStream_cases ctx' h) as (t2 & Hsecond & Hdel).
  apply Z.ltb_ge in Hpos. rewrite Hpos in *.
  inversion Hclose; subst.
  exists t2. rewrite Hnone in Hdel. split; [| exact Hdel].
  rewrite Hsecond. cbn [negb]. f_equal.
  unfold without_stream. cbn. rewrite delete_delete_eq. reflexivity.
Qed.

End ClosingEffects.

(** ** Queries, continued *)

Section QueryEffects.

Context {PS : PlatformStream}.

Ltac run_monad :=
  cbv beta iota delta
    [bind ret gets modify emit undefined LOG printf vector_at deref
     streams_index stream_written].

(** X13. A handle that passes the bounds check of the queries and has a
    session is answered by that session: each of [isOpenStream],
    [hasNewFrame], [getStreamFrameCount] and [captureFrame] makes exactly
    one call, the corresponding method of the session, and returns its
    result; only [captureFrame] can change the session object. *)
Theorem queries_delegate (ctx : Context) (h : Z) (s : Stream)
    (buf : list Byte.byte) (bytes : N) :
  passes_size_check ctx h ->
  session_at ctx h = Some s ->
  isOpenStream h ctx =
    Done (if stream_isOpen s then 1%N else 0%N) ctx
      [EvCall Call_isOpen (Some h) s] /\
  hasNewFrame h ctx =
    Done (stream_hasNewFrame s) ctx [EvCall Call_hasNewFrame (Some h) s] /\
  getStreamFrameCount h ctx =
    Done (stream_getFrameCount s) ctx
      [EvCall Call_getFrameCount (Some h) s] /\
  captureFrame h buf bytes ctx =
    (let '(ok, s', buf') := stream_captureFrame s buf bytes in
     Done (ok, buf') (with_stream ctx h s')
       [EvCall Call_captureFrame (Some h) s]).
Proof.
  intros Hcheck Hs.
  destruct (passes_size_check_leb _ _ Hcheck) as [Hneg Hsize].
  unfold isOpenStream, hasNewFrame, getStreamFrameCount, captureFrame.
  rewrite Hneg. run_monad. rewrite Hsize. unfold session_at in Hs.
  destruct (m_streams ctx !! h) as [[s0 |] |]; try discriminate.
  inversion Hs; subst.
  destruct (stream_captureFrame s buf bytes) as [[ok s'] buf'].
  repeat split.
Qed.

(** X14. A handle that fails the bounds check of the queries, because it
    is negative or not below the number of entries of the table, gets the
    sentinel from all four queries ([0], [false], [0], [false] with the
    buffer untouched); the context is unchanged and no session is
    called, whether or not the handle has one. *)
Theorem queries_reject_out_of_bounds (ctx : Context) (h : Z)
    (buf : list Byte.byte) (bytes : N) :
  h < 0 \/ (Z.of_nat (size (m_streams ctx)) <= h /\ h <= INT32_MAX) ->
  (exists e, isOpenStream h ctx = Done 0%N ctx [EvLog LOG_ERR e []]) /\
  (exists e, hasNewFrame h ctx = Done false ctx [EvLog LOG_ERR e []]) /\
  (exists e, getStreamFrameCount h ctx = Done 0%N ctx [EvLog LOG_ERR e []]) /\
  (exists e, captureFrame h buf bytes ctx
             = Done (false, buf) ctx [EvLog LOG_ERR e []]).
Proof.
  unfold isOpenStream, hasNewFrame, getStreamFrameCount, captureFrame.
  intros [Hneg | [Hsize Hmax]].
  - apply Z.ltb_lt in Hneg. rewrite Hneg.
    repeat split; eexists; reflexivity.
  - assert (Hpos : (h <? 0) = false) by (apply Z.ltb_ge; lia).
    assert (Hle : (N.of_nat (size (m_streams ctx)) <=? to_uint32 h)%N = true).
    { apply N.leb_le. unfold to_uint32. unfold INT32_MAX in Hmax.
      rewrite Z.mod_small by lia. lia. }
    rewrite Hpos. run_monad. rewrite Hle.
    repeat split; eexists; reflexivity.
Qed.

(** X15. The queries fault in one situation only.  When the handle is
    not negative, is below the number of entries of the table and has no
    stream object there, [isOpenStream], [hasNewFrame],
    [getStreamFrameCount] and [captureFrame] all dereference a null
    pointer; in every other situation all four return. *)
Theorem queries_fault_exactly_when_stale (ctx : Context) (h : Z)
    (buf : list Byte.byte) (bytes : N) :
  (stale_in_bounds ctx h ->
   faulted (isOpenStream h ctx) = Some NullDereference /\
   faulted (hasNewFrame h ctx) = Some NullDereference /\
   faulted (getStreamFrameCount h ctx) = Some NullDereference /\
   faulted (captureFrame h buf bytes ctx) = Some NullDereference)
  /\
  (~ stale_in_bounds ctx h ->
   faulted (isOpenStream h ctx) = None /\
   faulted (hasNewFrame h ctx) = None /\
   faulted (getStreamFrameCount h ctx) = None /\
   faulted (captureFrame h buf bytes ctx) = None).
Proof.
  unfold stale_in_bounds, session_at.
  unfold isOpenStream, hasNewFrame, getStreamFrameCount, captureFrame.
  destruct (h <? 0) eqn:Hneg.
  { apply Z.ltb_lt in Hneg. split; [lia | repeat split]. }
  apply Z.ltb_ge in Hneg. run_monad.
  destruct (N.of_nat (size (m_streams ctx)) <=? to_uint32 h)%N eqn:Hsize.
  { apply N.leb_le in Hsize. split; [lia | repeat split]. }
  apply N.leb_gt in Hsize.
  destruct (m_streams ctx !! h) as [[s |] |].
  - split; [intros (_ & _ & Hs); discriminate |].
    intros _. destruct (stream_captureFrame s buf bytes) as [[ok s'] buf'].
    repeat split.
  - split; [repeat split |]. intros Hno. exfalso. apply Hno. auto.
  - split; [repeat split |]. intros Hno. exfalso. apply Hno. auto.
Qed.

End QueryEffects.

(** ** Teardown *)

Section TeardownEffects.

Context {PS : PlatformStream}.

Lemma delete_entries_done (entries : list (Z * option Stream))
    (ctx : Context) :
  exists tr,
    delete_entries entries ctx = Done tt ctx tr /\
    deleted_handles tr = omap entry_session entries.
Proof.
  induction entries as [| [ID p] rest IH]; cbn [delete_entries].
  - exists []. split; reflexivity.
  - destruct IH as (tr & Hrest & Hdel). unfold bind, delete_stream.
    destruct p as [s |]; unfold emit, ret; rewrite Hrest.
    + eexists. split; [reflexivity |].
      unfold deleted_handles in *. rewrite omap_app, Hdel. reflexivity.
    + eexists. split; [reflexivity |].
      unfold deleted_handles in *. rewrite omap_app, Hdel. reflexivity.
Qed.

#[local] Instance key_le_total : Total key_le.
Proof. intros a b. unfold key_le. lia. Qed.

#[local] Instance key_le_trans : Transitive key_le.
Proof. intros a b c. unfold key_le. lia. Qed.

Lemma sessions_strictly_sorted (entries : list (Z * option Stream)) :
  StronglySorted key_le entries ->
  NoDup (entries.*1) ->
  StronglySorted Z.lt (omap entry_session entries).
Proof.
  induction entries as [| [k p] rest IH]; intros Hsorted Hnodup.
  - constructor.
  - apply StronglySorted_inv in Hsorted as [Hrest Hall].
    cbn in Hnodup. apply NoDup_cons in Hnodup as [Hfresh Hnodup].
    specialize (IH Hrest Hnodup).
    cbn [omap list_omap]. unfold entry_session at 1. cbn [fst snd].
    destruct p as [s |]; [| exact IH].
    constructor; [exact IH |].
    apply Forall_forall. intros k' Hk'.
    apply list_elem_of_omap in Hk' as ([k0 p0] & Hin & Hsome).
    unfold entry_session in Hsome. cbn in Hsome.
    destruct p0; [| discriminate].
    inversion Hsome; subst k0.
    rewrite Forall_forall in Hall. pose proof (Hall _ Hin) as Hle.
    unfold key_le in Hle. cbn in Hle.
    assert (k <> k').
    { intros ->. apply Hfresh. apply list_elem_of_fmap.
      eexists. split; [| exact Hin]. reflexivity. }
    lia.
Qed.

Lemma Context_destroy_cases (ctx : Context) :
  exists tr,
    Context_destroy ctx = Done tt ctx tr /\
    last tr = Some (EvLog LOG_DEBUG "Context destroyed\n" []) /\
    StronglySorted Z.lt (deleted_handles tr) /\
    forall h, h ∈ deleted_handles tr <-> is_Some (session_at ctx h).
Proof.
  unfold Context_destroy, bind, gets, LOG, emit.
  destruct (delete_entries_done (streams_in_order (m_streams ctx)) ctx)
    as (tr & Hrun & Hdel).
  rewrite Hrun. eexists. split; [reflexivity |]. cbn [app].
  split; [apply last_snoc |].
  unfold deleted_handles in *. rewrite omap_app, Hdel. cbn [omap].
  rewrite app_nil_r. unfold streams_in_order. split.
  - apply sessions_strictly_sorted.
    + apply StronglySorted_merge_sort; apply _.
    + rewrite merge_sort_Permutation. apply NoDup_fst_map_to_list.
  - intros h. rewrite list_elem_of_omap. unfold session_at. split.
    + intros ([k p] & Hin & Hsome). unfold entry_session in Hsome.
      cbn in Hsome.
      destruct p as [s |]; [| discriminate]. inversion Hsome; subst k.
      rewrite merge_sort_Permutation in Hin.
      apply elem_of_map_to_list in Hin. rewrite Hin. eauto.
    + intros [s Hs].
      destruct (m_streams ctx !! h) as [[s0 |] |] eqn:E; try discriminate.
      exists (h, Some s0). split; [| reflexivity].
      rewrite merge_sort_Permutation. now apply elem_of_map_to_list.
Qed.


(** X16. The destructor of the context destroys every session that is
    still in the table exactly once, in ascending order of the handles,
    destroys nothing else, and logs "Context destroyed" last. *)
Theorem Context_destroy_deletes_each_session (ctx : Context) :
  exists tr,
    Context_destroy ctx = Done tt ctx tr /\
    last tr = Some (EvLog LOG_DEBUG "Context destroyed\n" []) /\
    StronglySorted Z.lt (deleted_handles tr) /\
    forall h, h ∈ deleted_handles tr <-> is_Some (session_at ctx h).
Proof. apply Context_destroy_cases. Qed.

Lemma strictly_sorted_NoDup (l : list Z) :
  StronglySorted Z.lt l -> NoDup l.
Proof.
  induction 1 as [| x l Hsorted IH Hall]; [constructor |].
  apply NoDup_cons. split; [| exact IH].
  intros Hin. rewrite Forall_forall in Hall. specialize (Hall _ Hin). lia.
Qed.

Lemma session_at_without (ctx : Context) (h k : Z) :
  session_at (without_stream ctx h) k =
  if decide (h = k) then None else session_at ctx k.
Proof.
  unfold session_at, without_stream. cbn.
  destruct (decide (h = k)) as [-> | Hne].
  - now rewrite lookup_delete_eq.
  - now rewrite lookup_delete_ne.
Qed.

(** X21. Every session is destroyed exactly once, by [closeStream] or by
    the destructor: when the context is destroyed after a [closeStream]
    that returned, the handles on which the two together ran the stream
    destructor are the handles that had a session before the close, each
    of them once. *)
Theorem close_then_destroy_deletes_each_once (ctx ctx' : Context) (h : Z)
    b tr :
  closeStream h ctx = Done b ctx' tr ->
  exists tr2,
    Context_destroy ctx' = Done tt ctx' tr2 /\
    NoDup (deleted_handles (tr ++ tr2)) /\
    forall k, k ∈ deleted_handles (tr ++ tr2) <-> is_Some (session_at ctx k).
Proof.
  intros Hclose.
  destruct (closeStream_cases ctx h) as (t1 & Hres & Hdel1).
  rewrite Hres in Hclose. inversion Hclose; subst. clear Hclose.
  destruct (Context_destroy_cases
              (if h <? 0 then ctx else without_stream ctx h))
    as (tr2 & Hrun & _ & Hsorted & Hmem).
  exists tr2. split; [exact Hrun |].
  apply strictly_sorted_NoDup in Hsorted.
  unfold deleted_handles in *. rewrite omap_app, Hdel1.
  destruct (h <? 0); [split; [exact Hsorted | exact Hmem] |].
  assert (Hgone : h ∉ omap
            (fun e => match e with
                      | EvCall Call_delete (Some ID) _ => Some ID
                      | _ => None
                      end) tr2).
  { rewrite Hmem, session_at_without, decide_True by reflexivity.
    intros [s Hs]. discriminate. }
  destruct (session_at ctx h) as [s |] eqn:Hs.
  - split.
    + cbn [app]. apply NoDup_cons. split; assumption.
    + intros k. cbn [app]. rewrite elem_of_cons, Hmem, session_at_without.
      destruct (decide (h = k)) as [<- | Hne].
      * rewrite Hs. split; [eauto | auto].
      * split; [intros [-> | Hk]; [congruence | exact Hk] | auto].
  - split; [exact Hsorted |].
    intros k. cbn [app]. rewrite Hmem, session_at_without.
    destruct (decide (h = k)) as [<- | Hne]; [| reflexivity].
    rewrite Hs. split; intros [s Hk]; discriminate.
Qed.

End TeardownEffects.

(** ** Handles before the first close *)

Section DenseTable.

Context {PS : PlatformStream}.

(** In a dense table every handle below the counter has a session. *)
Lemma table_dense_complete (ctx : Context) (h : Z) :
  table_dense ctx -> 0 <= h < m_streamCounter ctx ->
  is_Some (session_at ctx h).
Proof.
  intros [[Hpos Hok] Hsize] Hh.
  set (all := list_to_set (seqZ 0 (m_streamCounter ctx)) : gset Z).
  assert (Hsub : dom (m_streams ctx) ⊆ all).
  { intros k Hk. apply elem_of_dom in Hk as [p Hp].
    destruct (Hok _ _ Hp) as [Hrange _].
    apply elem_of_list_to_set, elem_of_seqZ. lia. }
  assert (Hall : size all = size (dom (m_streams ctx))).
  { unfold all. rewrite size_list_to_set by apply NoDup_seqZ.
    rewrite length_seqZ, size_dom. lia. }
  assert (Heq : dom (m_streams ctx) = all).
  { apply set_subseteq_size_eq; [exact Hsub | lia]. }
  assert (Hin : h ∈ dom (m_streams ctx)).
  { rewrite Heq. apply elem_of_list_to_set, elem_of_seqZ. lia. }
  apply elem_of_dom in Hin as [p Hp].
  destruct (Hok _ _ Hp) as [_ [s ->]].
  unfold session_at. rewrite Hp. eauto.
Qed.

Lemma table_dense_new (devices : list (option deviceInfo)) :
  table_dense (Context_new devices).
Proof. split; [apply table_ok_new | reflexivity]. Qed.

Lemma serve_table_dense (r : request) (ctx ctx' : Context) rep tr :
  is_close r = false ->
  table_dense ctx -> serve r ctx = Done rep ctx' tr -> table_dense ctx'.
Proof.
  intros Hr [Hok Hsize] H.
  split; [eapply serve_table_ok; eassumption |].
  destruct (serve_effect _ _ _ _ _ H)
    as [-> | [(h & s & s' & _ & Hs & ->) | [(h & -> & _)
       | (id & fid & s' & _ & Hmax & ->)]]]; cbn.
  - assumption.
  - rewrite map_size_insert_Some by eauto. assumption.
  - discriminate.
  - unfold map_insert.
    destruct (m_streams ctx !! m_streamCounter ctx) as [p |] eqn:E.
    + destruct Hok as [_ Hok]. destruct (Hok _ _ E). lia.
    + rewrite map_size_insert_None by assumption. lia.
Qed.

Lemma session_table_dense (rs : list request) :
  forall (ctx ctx' : Context) reps tr,
    forallb (fun r => negb (is_close r)) rs = true ->
    table_dense ctx -> session rs ctx = Done reps ctx' tr ->
    table_dense ctx'.
Proof.
  induction rs as [| r rs IH]; intros ctx ctx' reps tr Hrs Hd H.
  - inversion H; subst. assumption.
  - cbn [forallb] in Hrs. apply andb_true_iff in Hrs as [Hr Hrs].
    apply negb_true_iff in Hr.
    cbn [session] in H. unfold bind at 1 in H.
    destruct (serve r ctx) as [rep c1 t1 |] eqn:E1; [| discriminate].
    unfold bind at 1 in H.
    destruct (session rs c1) as [reps' c2 t2 |] eqn:E2; [| discriminate].
    cbv beta iota delta [ret] in H. inversion H; subst.
    eapply IH; [exact Hrs | | eassumption].
    eapply serve_table_dense; eassumption.
Qed.

(** X17. As long as no stream has been closed, every handle handed out
    works with the queries: after any sequence of calls without
    [closeStream] on a fresh context, each handle from 0 up to the counter
    has its session in the table and passes the bounds check, and
    [isOpenStream] reports that session's state. *)
Theorem handles_usable_before_first_close
    (devices : list (option deviceInfo)) (rs : list request)
    (ctx' : Context) reps tr (h : Z) :
  forallb (fun r => negb (is_close r)) rs = true ->
  session rs (Context_new devices) = Done reps ctx' tr ->
  0 <= h < m_streamCounter ctx' ->
  h <= INT32_MAX ->
  exists s,
    session_at ctx' h = Some s /\
    passes_size_check ctx' h /\
    isOpenStream h ctx' =
      Done (if stream_isOpen s then 1%N else 0%N) ctx'
        [EvCall Call_isOpen (Some h) s].
Proof.
  intros Hrs Hrun Hh Hmax.
  pose proof (session_table_dense rs _ _ _ _ Hrs
                (table_dense_new devices) Hrun) as Hdense.
  destruct (table_dense_complete _ _ Hdense Hh) as [s Hs].
  assert (Hcheck : passes_size_check ctx' h).
  { destruct Hdense as [_ Hsize]. split; lia. }
  exists s. split; [exact Hs |]. split; [exact Hcheck |].
  now apply isOpenStream_session.
Qed.

End DenseTable.

(** ** Opening, continued *)

Section OpeningEffects.

Context {PS : PlatformStream}.

(** X18. From a context whose counter is not negative, [openStream]
    returns -1 exactly in the three failure cases: the device ID is out of
    range, the format ID is out of range for the present descriptor, or
    the platform stream does not open.  A handle is never -1. *)
Theorem openStream_minus_one_iff_fails (ctx : Context) (id formatID : N) :
  0 <= m_streamCounter ctx ->
  (returned (openStream id formatID ctx) = Some (-1) <->
   open_fails ctx id formatID).
Proof.
  intros Hpos. split.
  - unfold open_fails, openStream, bind, gets, vector_at, deref, LOG,
      printf, emit.
    destruct (id <? N.of_nat (length (m_devices ctx)))%N eqn:Hid;
      [| intros _; left; now apply N.ltb_ge].
    destruct (m_devices ctx !! N.to_nat id) as [[dev |] |] eqn:Hdev;
      cbv beta iota delta [ret undefined]; try discriminate.
    intros H. right. exists dev. split; [reflexivity |]. revert H.
    destruct (N.of_nat (length (m_formats dev)) <=? formatID)%N eqn:Hfmt;
      [intros _; left; now apply N.leb_le |].
    destruct (m_formats dev !! N.to_nat formatID) as [fmt |] eqn:Hf;
      cbv beta iota; try discriminate.
    intros H. right. exists fmt. split; [reflexivity |]. revert H.
    destruct (stream_open createPlatformStream dev (width fmt) (height fmt)
                (fourcc fmt)) as [ok s'].
    destruct ok; cbn [negb fst]; cbv beta iota; [| reflexivity].
    destruct (print_fourcc_done 4 (stream_getFOURCC s') ctx) as [tr4 ->].
    unfold storeStream, bind, gets, modify, ret, undefined.
    destruct (m_streamCounter ctx =? INT32_MAX); [discriminate |].
    cbn. intros H. inversion H. lia.
  - intros Hfail. destruct (openStream_fails _ _ _ Hfail) as [tr ->].
    reflexivity.
Qed.

(** X19. [openStream] can fault in two ways only: by dereferencing a
    null descriptor, or by incrementing the counter at [INT32_MAX] after
    the platform stream has opened.  It never indexes [m_devices] or
    [m_formats] out of range. *)
Theorem openStream_faults_only (ctx : Context) (id formatID : N) (f : fault) :
  faulted (openStream id formatID ctx) = Some f ->
  (f = NullDereference /\ m_devices ctx !! N.to_nat id = Some None) \/
  (f = SignedOverflow /\ m_streamCounter ctx = INT32_MAX /\
   exists dev fmt,
     m_devices ctx !! N.to_nat id = Some (Some dev) /\
     m_formats dev !! N.to_nat formatID = Some fmt /\
     fst (stream_open createPlatformStream dev
            (width fmt) (height fmt) (fourcc fmt)) = true).
Proof.
  unfold openStream, bind, gets, vector_at, deref, LOG, printf, emit.
  destruct (id <? N.of_nat (length (m_devices ctx)))%N eqn:Hid;
    [| discriminate].
  apply N.ltb_lt in Hid.
  destruct (slot_exists _ _ Hid) as [p Hp]. rewrite Hp.
  destruct p as [dev |]; cbv beta iota delta [ret undefined];
    [| intros H; inversion H; auto].
  destruct (N.of_nat (length (m_formats dev)) <=? formatID)%N eqn:Hfmt;
    [discriminate |].
  apply N.leb_gt in Hfmt.
  destruct (slot_exists _ _ Hfmt) as [fmt Hf]. rewrite Hf. cbv beta iota.
  destruct (stream_open createPlatformStream dev (width fmt) (height fmt)
              (fourcc fmt)) as [ok s'] eqn:Hopen.
  destruct ok; cbn [negb]; cbv beta iota; [| discriminate].
  destruct (print_fourcc_done 4 (stream_getFOURCC s') ctx) as [tr4 ->].
  unfold storeStream, bind, gets, modify, ret, undefined.
  destruct (m_streamCounter ctx =? INT32_MAX) eqn:Hmax; [| discriminate].
  apply Z.eqb_eq in Hmax.
  intros H; inversion H. right. repeat split; [assumption |].
  exists dev, fmt. rewrite Hopen. auto.
Qed.

End OpeningEffects.

(** ** The table primitives *)

Section TablePrimitives.

Context {PS : PlatformStream}.

(** X20. Storing, looking up and removing compose: when the key of the
    current counter is free and the counter can advance, [storeStream]
    returns the counter as ID, [lookupStreamByID] of that ID then returns
    the stored pointer, and [removeStream] of that ID succeeds and gives
    back the table as it was before the store; the counter stays
    advanced, so the ID is not handed out again. *)
Theorem store_lookup_remove (ctx : Context) (p : option Stream) :
  m_streams ctx !! m_streamCounter ctx = None ->
  m_streamCounter ctx <> INT32_MAX ->
  exists c1,
    storeStream p ctx = Done (m_streamCounter ctx) c1 [] /\
    lookupStreamByID (m_streamCounter ctx) c1 = Done p c1 [] /\
    exists tr,
      removeStream (m_streamCounter ctx) c1 =
      Done true
        (mkContext (m_devices ctx) (m_streams ctx) (m_streamCounter ctx + 1))
        tr.
Proof.
  intros Hfree Hmax. apply Z.eqb_neq in Hmax.
  unfold storeStream, lookupStreamByID, removeStream, delete_stream,
    bind, gets, modify, ret, undefined, emit.
  rewrite Hmax. cbn [m_streams m_devices m_streamCounter].
  unfold map_insert. rewrite Hfree.
  eexists. split; [reflexivity |].
  cbn [m_streams m_devices m_streamCounter].
  rewrite lookup_insert_eq. split; [destruct p; reflexivity |].
  destruct p; cbn [m_streams m_devices m_streamCounter];
    rewrite (delete_insert_id _ _ _ Hfree); eexists; reflexivity.
Qed.

End TablePrimitives.

(** * Concrete instances of the further properties *)

(** Device 0 of [Sim.ctx1] is below the count 3 and has a descriptor. *)
Lemma getDeviceName_below_count_witness :
  (0 < deviceCount Sim.ctx1)%N /\
  exists p,
    m_devices Sim.ctx1 !! N.to_nat 0 = Some p /\
    returned (getDeviceName 0 Sim.ctx1) = Some (m_name <$> p) /\
    trace (getDeviceName 0 Sim.ctx1) =
      match p with
      | Some _ => []
      | None => [EvLog LOG_ERR "Internal device pointer is NULL" []]
      end.
Proof.
  assert (H : (0 < deviceCount Sim.ctx1)%N) by reflexivity.
  split; [exact H |]. exact (getDeviceName_below_count Sim.ctx1 0 H).
Defined.

(** [Camera0] has two formats. *)
Lemma formats_enumerable_witness :
  m_devices Sim.ctx0 !! N.to_nat 0 = Some (Some Sim.camera0) /\
  Z.of_nat (length (m_formats Sim.camera0)) <= INT32_MAX /\
  exists n,
    getNumFormats 0 Sim.ctx0 = Done n Sim.ctx0 [] /\
    n = Z.of_nat (length (m_formats Sim.camera0)) /\
    forall formatID info,
      (Z.of_N formatID < n ->
       exists f, m_formats Sim.camera0 !! N.to_nat formatID = Some f /\
                 getFormatInfo 0 formatID info Sim.ctx0
                 = Done (true, f) Sim.ctx0 [])
      /\
      (n <= Z.of_N formatID ->
       returned (getFormatInfo 0 formatID info Sim.ctx0)
       = Some (false, info)).
Proof.
  assert (Hdev : m_devices Sim.ctx0 !! N.to_nat 0 = Some (Some Sim.camera0))
    by reflexivity.
  assert (Hmax : Z.of_nat (length (m_formats Sim.camera0)) <= INT32_MAX)
    by (vm_compute; discriminate).
  split; [exact Hdev |]. split; [exact Hmax |].
  exact (formats_enumerable Sim.ctx0 0 Sim.camera0 Hdev Hmax).
Defined.

Lemma open_open_close_runs :
  exists reps tr,
    session Sim.open_open_close Sim.ctx0 = Done reps Sim.one_closed tr.
Proof. eexists. eexists. vm_compute. reflexivity. Defined.

Lemma open_open_runs :
  exists reps tr, session Sim.open_open Sim.ctx0 = Done reps Sim.two_open tr.
Proof. eexists. eexists. vm_compute. reflexivity. Defined.

(** Opening two streams and closing one leaves the registry alone. *)
Lemma registry_never_changes_witness :
  m_devices Sim.one_closed = m_devices Sim.ctx0 /\
  deviceCount Sim.one_closed = deviceCount Sim.ctx0.
Proof.
  destruct open_open_close_runs as (reps & tr & Hrun).
  destruct (registry_never_changes _ _ _ _ _ Hrun) as (Hdev & Hcount & _).
  split; assumption.
Defined.

Lemma table_ok_invariant_witness :
  table_ok Sim.ctx0 /\ table_ok Sim.one_closed.
Proof.
  destruct open_open_close_runs as (reps & tr & Hrun).
  destruct (table_ok_invariant (PS := Sim.platform) [Some Sim.camera0]
              Sim.open_open_close) as [Hnew Hstep].
  split; [exact Hnew |]. exact (Hstep _ _ _ _ Hnew Hrun).
Defined.

(** Setting a property of stream 1 leaves the entry of handle 0 alone. *)
Lemma serve_touches_one_handle_witness :
  exists ctx',
    final (serve (ReqSetStreamProperty 1 1 50) Sim.two_open) = Some ctx' /\
    touched (ReqSetStreamProperty 1 1 50) Sim.two_open <> Some 0 /\
    m_streams ctx' !! 0 = m_streams Sim.two_open !! 0.
Proof.
  assert (Hrun : exists rep ctx' tr,
             serve (ReqSetStreamProperty 1 1 50) Sim.two_open
             = Done rep ctx' tr)
    by (eexists; eexists; eexists; vm_compute; reflexivity).
  destruct Hrun as (rep & ctx' & tr & Hrun).
  assert (Hk : touched (ReqSetStreamProperty 1 1 50) Sim.two_open <> Some 0)
    by discriminate.
  exists ctx'. split; [rewrite Hrun; reflexivity |]. split; [exact Hk |].
  exact (serve_touches_one_handle _ _ _ _ _ 0 Hrun Hk).
Defined.

(** Opening format 1 of [Camera0] on the fresh context stores the stream
    at handle 0. *)
Lemma openStream_stores_session_witness :
  let s' := Sim.mk true 1280 720 Sim.YUYV 0 true 0 false in
  table_ok Sim.ctx0 /\
  exists ctx' tr,
    openStream 0 1 Sim.ctx0 = Done 0 ctx' tr /\
    session_at ctx' 0 = Some s' /\
    m_streamCounter ctx' = 0 + 1 /\
    table_ok ctx'.
Proof.
  intros s'.
  assert (Hok : table_ok Sim.ctx0) by apply table_ok_new.
  split; [exact Hok |].
  apply (openStream_stores_session Sim.ctx0 0 1 Sim.camera0
           (mkFormat 1280 720 Sim.YUYV) s' Hok);
    [reflexivity | reflexivity | reflexivity | discriminate].
Defined.

(** Closing handle 1 of [Sim.one_closed]; handle 0 is another key. *)
Lemma closeStream_effect_witness :
  exists tr,
    closeStream 1 Sim.one_closed
    = Done true (without_stream Sim.one_closed 1) tr /\
    deleted_handles tr = [1] /\
    m_streams (without_stream Sim.one_closed 1) !! 0
    = m_streams Sim.one_closed !! 0.
Proof.
  destruct (closeStream_effect Sim.one_closed 1)
    as (tr & Hres & Hdel & _ & _ & Hother).
  exists tr. split; [exact Hres |]. split; [exact Hdel |].
  apply Hother. discriminate.
Defined.

Lemma closed_handle_has_no_properties_witness :
  exists ctx',
    final (closeStream 1 Sim.two_open) = Some ctx' /\
    setStreamProperty 1 1 50 ctx' = Done false ctx' [].
Proof.
  assert (Hrun : exists b ctx' tr,
             closeStream 1 Sim.two_open = Done b ctx' tr)
    by (eexists; eexists; eexists; vm_compute; reflexivity).
  destruct Hrun as (b & ctx' & tr & Hrun).
  exists ctx'. split; [rewrite Hrun; reflexivity |].
  assert (Hpos : 0 <= 1) by lia.
  destruct (closed_handle_has_no_properties _ _ _ _ _ 1 0 0 50 true
              Hpos Hrun) as (_ & Hset & _).
  exact Hset.
Defined.

Lemma closeStream_twice_deletes_once_witness :
  exists ctx',
    final (closeStream 1 Sim.two_open) = Some ctx' /\
    exists tr',
      closeStream 1 ctx' = Done true ctx' tr' /\ deleted_handles tr' = [].
Proof.
  assert (Hrun : exists b ctx' tr,
             closeStream 1 Sim.two_open = Done b ctx' tr)
    by (eexists; eexists; eexists; vm_compute; reflexivity).
  destruct Hrun as (b & ctx' & tr & Hrun).
  exists ctx'. split; [rewrite Hrun; reflexivity |].
  assert (Hpos : 0 <= 1) by lia.
  exact (closeStream_twice_deletes_once _ _ _ _ _ Hpos Hrun).
Defined.

(** With two streams open, handle 0 passes the bounds check and is
    answered by its session. *)
Lemma queries_delegate_witness :
  let s : @Stream Sim.platform :=
    Sim.mk true 1280 720 Sim.YUYV 0 true 0 false in
  passes_size_check Sim.two_open 0 /\
  session_at Sim.two_open 0 = Some s /\
  isOpenStream 0 Sim.two_open =
    Done 1%N Sim.two_open [EvCall Call_isOpen (Some 0) s] /\
  getStreamFrameCount 0 Sim.two_open =
    Done 0%N Sim.two_open [EvCall Call_getFrameCount (Some 0) s].
Proof.
  intros s.
  assert (Hcheck : passes_size_check Sim.two_open 0).
  { split; [split; [lia | vm_compute; discriminate] |].
    vm_compute. reflexivity. }
  assert (Hs : session_at Sim.two_open 0 = Some s) by reflexivity.
  destruct (queries_delegate Sim.two_open 0 s [] 0 Hcheck Hs)
    as (Hopen & _ & Hcount & _).
  split; [exact Hcheck |]. split; [exact Hs |].
  split; [exact Hopen | exact Hcount].
Defined.

(** In [Sim.one_closed] the table has one entry, so handle 1 fails the
    bounds check. *)
Lemma queries_reject_out_of_bounds_witness :
  (Z.of_nat (size (m_streams Sim.one_closed)) <= 1 /\ 1 <= INT32_MAX) /\
  (exists e,
     hasNewFrame 1 Sim.one_closed
     = Done false Sim.one_closed [EvLog LOG_ERR e []]).
Proof.
  assert (H : Z.of_nat (size (m_streams Sim.one_closed)) <= 1 /\
              1 <= INT32_MAX)
    by (split; vm_compute; discriminate).
  split; [exact H |].
  destruct (queries_reject_out_of_bounds Sim.one_closed 1 [] 0
              (or_intror H)) as (_ & Hnew & _).
  exact Hnew.
Defined.

(** In [Sim.one_closed] handle 0 is stale and inside the bounds, handle 1
    is not stale. *)
Lemma queries_fault_exactly_when_stale_witness :
  stale_in_bounds Sim.one_closed 0 /\
  faulted (isOpenStream 0 Sim.one_closed) = Some NullDereference /\
  ~ stale_in_bounds Sim.one_closed 1 /\
  faulted (isOpenStream 1 Sim.one_closed) = None.
Proof.
  assert (Hstale : stale_in_bounds Sim.one_closed 0).
  { split; [lia |]. split; reflexivity. }
  assert (Hlive : ~ stale_in_bounds Sim.one_closed 1).
  { intros (_ & _ & Hs). vm_compute in Hs. discriminate. }
  split; [exact Hstale |].
  split;
    [exact (proj1 (proj1 (queries_fault_exactly_when_stale
                            Sim.one_closed 0 [] 0) Hstale)) |].
  split; [exact Hlive |].
  exact (proj1 (proj2 (queries_fault_exactly_when_stale
                         Sim.one_closed 1 [] 0) Hlive)).
Defined.

(** After two opens and no close, handle 1 is usable. *)
Lemma handles_usable_before_first_close_witness :
  forallb (fun r => negb (is_close r)) Sim.open_open = true /\
  0 <= 1 < m_streamCounter Sim.two_open /\
  exists s,
    session_at Sim.two_open 1 = Some s /\
    passes_size_check Sim.two_open 1 /\
    isOpenStream 1 Sim.two_open =
      Done (if stream_isOpen s then 1%N else 0%N) Sim.two_open
        [EvCall Call_isOpen (Some 1) s].
Proof.
  assert (Hrs : forallb (fun r => negb (is_close r)) Sim.open_open = true)
    by reflexivity.
  assert (Hh : 0 <= 1 < m_streamCounter Sim.two_open)
    by (split; [lia | vm_compute; reflexivity]).
  assert (Hmax : 1 <= INT32_MAX) by (vm_compute; discriminate).
  destruct open_open_runs as (reps & tr & Hrun).
  split; [exact Hrs |]. split; [exact Hh |].
  exact (handles_usable_before_first_close [Some Sim.camera0] Sim.open_open
           Sim.two_open reps tr 1 Hrs Hrun Hh Hmax).
Defined.

(** The device without pixels fails to open: -1. *)
Lemma openStream_minus_one_iff_fails_witness :
  0 <= m_streamCounter Sim.ctx1 /\
  open_fails Sim.ctx1 2 0 /\
  returned (openStream 2 0 Sim.ctx1) = Some (-1).
Proof.
  assert (Hpos : 0 <= m_streamCounter Sim.ctx1) by (vm_compute; discriminate).
  assert (Hfail : open_fails Sim.ctx1 2 0).
  { right. exists Sim.broken. split; [reflexivity |].
    right. exists (mkFormat 0 0 Sim.YUYV). split; reflexivity. }
  split; [exact Hpos |]. split; [exact Hfail |].
  exact (proj2 (openStream_minus_one_iff_fails Sim.ctx1 2 0 Hpos) Hfail).
Defined.

(** The fault of [openStream] on the null slot 1 of [Sim.ctx1]. *)
Lemma openStream_faults_only_witness :
  faulted (openStream 1 0 Sim.ctx1) = Some NullDereference /\
  ((NullDereference = NullDereference /\
    m_devices Sim.ctx1 !! N.to_nat 1 = Some None) \/
   (NullDereference = SignedOverflow /\
    m_streamCounter Sim.ctx1 = INT32_MAX /\
    exists dev fmt,
      m_devices Sim.ctx1 !! N.to_nat 1 = Some (Some dev) /\
      m_formats dev !! N.to_nat 0 = Some fmt /\
      fst (stream_open (PlatformStream := Sim.platform)
             createPlatformStream dev
             (width fmt) (height fmt) (fourcc fmt)) = true)).
Proof.
  assert (H : faulted (openStream 1 0 Sim.ctx1) = Some NullDereference)
    by reflexivity.
  split; [exact H |].
  exact (openStream_faults_only Sim.ctx1 1 0 NullDereference H).
Defined.

(** Storing a fresh stream in the empty table, then looking it up and
    removing it. *)
Lemma store_lookup_remove_witness :
  m_streams Sim.ctx0 !! m_streamCounter Sim.ctx0 = None /\
  m_streamCounter Sim.ctx0 <> INT32_MAX /\
  exists c1,
    storeStream (PS := Sim.platform) (Some Sim.fresh) Sim.ctx0
    = Done (m_streamCounter Sim.ctx0) c1 [] /\
    lookupStreamByID (m_streamCounter Sim.ctx0) c1
    = Done (Some (Sim.fresh : @Stream Sim.platform)) c1 [] /\
    exists tr,
      removeStream (m_streamCounter Sim.ctx0) c1 =
      Done true
        (mkContext (m_devices Sim.ctx0) (m_streams Sim.ctx0)
           (m_streamCounter Sim.ctx0 + 1)) tr.
Proof.
  assert (Hfree : m_streams Sim.ctx0 !! m_streamCounter Sim.ctx0 = None)
    by reflexivity.
  assert (Hmax : m_streamCounter Sim.ctx0 <> INT32_MAX) by discriminate.
  split; [exact Hfree |]. split; [exact Hmax |].
  exact (store_lookup_remove (PS := Sim.platform) Sim.ctx0
           (Some Sim.fresh) Hfree Hmax).
Defined.

(** Closing handle 0 of two open streams and destroying the context
    deletes the streams 0 and 1 once each. *)
Lemma close_then_destroy_deletes_each_once_witness :
  exists ctx' tr tr2,
    closeStream 0 Sim.two_open = Done true ctx' tr /\
    Context_destroy ctx' = Done tt ctx' tr2 /\
    deleted_handles (tr ++ tr2) = [0; 1] /\
    NoDup (deleted_handles (tr ++ tr2)).
Proof.
  assert (Hrun : exists ctx' tr,
             closeStream 0 Sim.two_open = Done true ctx' tr)
    by (eexists; eexists; vm_compute; reflexivity).
  destruct Hrun as (ctx' & tr & Hrun).
  destruct (close_then_destroy_deletes_each_once _ _ _ _ _ Hrun)
    as (tr2 & Hdestroy & Hnodup & _).
  exists ctx', tr, tr2.
  split; [exact Hrun |]. split; [exact Hdestroy |]. split; [| exact Hnodup].
  vm_compute in Hrun. inversion Hrun; subst.
  vm_compute in Hdestroy. inversion Hdestroy; subst.
  reflexivity.
Defined.
